(** * gcalbot: credential handoff and conversation engine

    A shallow embedding of the Telegram bot that manages Google Calendar
    sharing (engine/tg/tg_handlers.py, engine/sqlite/database.py,
    engine/fastapi/web.py, engine/gcalendar/gcal_handlers.py), followed by
    the properties of the handoff dispatcher, of the correlation store and
    of the per-chat dialogue.

    Python dictionaries with dynamic keys are [gmap]s, the credential table
    is the list of its rows, exceptions are values of [exn], and handlers
    are computations in a state-and-exception monad over [world]. *)

From Stdlib Require Import ZArith Ascii String List Bool Lia.
From stdpp Require Import base option list gmap strings pretty.
Import ListNotations.

Open Scope string_scope.
Open Scope list_scope.

(** ** Exceptions raised by the modelled code *)

Inductive exn :=
| KeyError (key : string)          (* dict[key] / dict.pop(key) on a missing key *)
| DoesNotExist                     (* peewee: Model.get found no row *)
| HttpError (error_details : string) (* googleapiclient.errors.HttpError *)
| BadRequest (message : string)    (* telegram.error.BadRequest *)
| ValueError                       (* tuple unpacking of a split of the wrong length *)
| AttributeError.                  (* attribute of None *)

Inductive result (A : Type) :=
| Ok (a : A)
| Raise (e : exn).
Arguments Ok {A} a.
Arguments Raise {A} e.

(** ** engine/gcalendar/gcal_handlers.py: constants *)

Module gcal.
Definition STATE_KEY : string := "state".
Definition CREDENTIALS_KEY : string := "credentials".
Definition FREE_BUSY_READER : string := "freeBusyReader".
Definition READER : string := "reader".
Definition WRITER : string := "writer".
End gcal.

(** ** engine/tg/tg_messages.py

    Templates with a placeholder are functions of the value formatted in. *)

Module msgs.
Definition TG_HELP : string := "
Управление доступом к Google Calendar

Команды:
/start - вызов кнопочного меню
/help - показать справку
/show_calendars - показать календари
/show_share <calendar> - показать, у кого есть доступ к просмотру календаря
/add_share <calendar> <e-mail> <role> - добавить доступ e-mail на чтение календаря calendar
/delete_share <calendar> <e-mail> - отозвать доступ e-mail на чтение календаря calendar
/revoke_authz - отозвать авторизацию бота на доступ к Google Calendar 
".
Definition TG_UNKNOWN : string := "Команда не зарегистрирована".
Definition TG_KEYBOARD_ACTIVE : string := "Другая клавиатура всё ещё активна".
Definition TG_INVALID_ARG_NUM (num : Z) : string :=
  "Неверное число аргументов, должно быть " +:+ pretty num.
Definition TG_AUTHZ_URL (url : string) : string :=
  "Для авторизации gcalbot в Google Calendar пройдите, пожалуйста, по ссылке: " +:+ url.
Definition TG_AUTH_COMPLETE : string := "Авторизация выполнена успешно".
Definition TG_AUTH_FAILED : string := "Доступ к календарю не разрешён пользователем".
Definition TG_CALENDAR_NOT_FOUND (details : string) : string :=
  "Календарь не найден: " +:+ details.
Definition TG_USER_ADDED (email access_type calendar : string) : string :=
  "Пользователь " +:+ email +:+ " получил доступ '" +:+ access_type
    +:+ "' к календарю " +:+ calendar.
Definition TG_USER_DELETED (email calendar : string) : string :=
  "Отозван доступ пользователя " +:+ email +:+ " к календарю " +:+ calendar.
Definition TG_EMAIL_INVALID : string := "Неверный формат e-mail".
Definition TG_ROLE_INVALID (values : string) : string :=
  "Неверная роль, допустимые значения: " +:+ values.
Definition TG_REVOKE_AUTHZ : string :=
  "Авторизация бота отозвана. Для возобновления работы вызовите /start, чтобы получить ссылку для авторизации".

Definition BUTTON_START : string := "В начало".
Definition BUTTON_BACK : string := "Назад".
Definition BUTTON_FINISH : string := "Завершить".
Definition BUTTON_SHOW_SHARE : string := "Показать доступ".
Definition BUTTON_ADD_SHARE : string := "Добавить доступ".
Definition BUTTON_DEL_SHARE : string := "Отозвать доступ".
Definition BUTTON_REVOKE_AUTHZ : string := "Отозвать авторизацию".
Definition BUTTON_FREE_BUSY : string := "Доступ на чтение (только занято/свободно)".
Definition BUTTON_READER : string := "Доступ на чтение".
Definition BUTTON_WRITER : string := "Доступ на запись".

Definition PROMPT_INITIAL_MENU : string := "Выберите каледарь".
Definition PROMPT_SHARE_EMAIL (calendar : string) : string :=
  "Введите e-mail, которому нужно предоставить доступ к календарю " +:+ calendar.
Definition PROMPT_NOT_EMAIL : string := "Нужно ввести e-mail в качестве параметра".
Definition PROMPT_DELETE_EMAIL (calendar : string) : string :=
  "Введите e-mail, доступ к календарю " +:+ calendar +:+ " которого нужно отозвать".
Definition PROMPT_CHOOSE_ACTION (calendar : string) : string :=
  "Выберите действие для календаря " +:+ calendar.
Definition PROMPT_CHOOSE_ROLE (email calendar : string) : string :=
  "Выберите уровень доступа пользователя " +:+ email +:+ " к календарю " +:+ calendar.

(** GCAL_MAP, in insertion order; [GCAL_MAP_get] is the subscript. *)
Definition GCAL_MAP : list (string * string) :=
  [ (gcal.FREE_BUSY_READER, "только занято/свободно");
    (gcal.READER, "чтение");
    (gcal.WRITER, "запись") ].
Definition GCAL_MAP_keys : list string := map fst GCAL_MAP.
Definition GCAL_MAP_get (role : string) : option string :=
  snd <$> find (fun kv => String.eqb (fst kv) role) GCAL_MAP.
Definition GCAL_ENTRY (email access : string) : string := email +:+ ": " +:+ access.
End msgs.

(** ** engine/sqlite/database.py

    The table GCalendarCred as the list of its rows, oldest first. *)

Module db.
Record GCalendarCred := { chat_id : Z; credentials : string }.

Definition table := list GCalendarCred.

(** [GCalendarCred.select().where(GCalendarCred.chat_id == chat_id)] *)
Definition where_chat_id (c : Z) (r : GCalendarCred) : bool := Z.eqb (chat_id r) c.

Definition credentials_exists (t : table) (c : Z) : bool :=
  existsb (where_chat_id c) t.

Definition create_credentials (t : table) (c : Z) (creds : string) : table :=
  if negb (existsb (where_chat_id c) t)
  then t ++ [ {| chat_id := c; credentials := creds |} ]
  else t.

(** [None] stands for the DoesNotExist exception of [Model.get]. *)
Definition get_credentials (t : table) (c : Z) : option string :=
  credentials <$> find (where_chat_id c) t.

(** [record = get(...); record.credentials = ...; record.save()]: the
    first matching row is rewritten; [None] is DoesNotExist. *)
Fixpoint save_first (t : table) (c : Z) (creds : string) : option table :=
  match t with
  | [] => None
  | r :: t' =>
      if where_chat_id c r
      then Some ({| chat_id := chat_id r; credentials := creds |} :: t')
      else cons r <$> save_first t' c creds
  end.
Definition update_credentials := save_first.

(** [GCalendarCred.delete().where(...).execute()] *)
Definition delete_credentials (t : table) (c : Z) : table :=
  List.filter (fun r => negb (where_chat_id c r)) t.
End db.

(** ** The Telegram side, as the bot observes it

    A chat holds messages addressed by (chat id, message id).  Editing a
    message to the content it already has raises BadRequest (the comment in
    [start] says so), as does addressing a message that is not there. *)

Record InlineKeyboardButton := { btn_text : string; callback_data : string }.

Definition InlineKeyboardMarkup := list (list InlineKeyboardButton).

Record Message := {
  msg_text : string;
  reply_markup : option InlineKeyboardMarkup;
  reply_to_message_id : option Z
}.

Record Bot := {
  messages : gmap (Z * Z) Message;
  next_message_id : Z
}.

Global Instance InlineKeyboardButton_eq_dec : EqDecision InlineKeyboardButton.
Proof. solve_decision. Defined.
Global Instance Message_eq_dec : EqDecision Message.
Proof. solve_decision. Defined.

(** ** State seen by the handlers *)

(** [context.chat_data]: a dict that only ever holds the three keys
    INITIAL_MSG_KEY, INLINE_MSG_KEY and INLINE_CALENDAR_KEY; a field is
    [None] when its key is absent. *)
Record ChatData := {
  initial_msg : option Z;
  inline_msg : option Z;
  calendar_name : option string
}.

Definition chat_data_empty : ChatData :=
  {| initial_msg := None; inline_msg := None; calendar_name := None |}.

Record world := {
  bot_data : gmap string Z;   (* context.bot_data / dispatcher.bot_data *)
  chat_data : ChatData;       (* context.chat_data of the chat being served *)
  database : db.table;
  bot : Bot;
  logged : list string;       (* logging.error lines, oldest first *)
  links_issued : nat          (* calls of gcal.get_authz_link so far *)
}.

Definition set_bot_data (f : gmap string Z → gmap string Z) (w : world) : world :=
  {| bot_data := f (bot_data w); chat_data := chat_data w; database := database w;
     bot := bot w; logged := logged w; links_issued := links_issued w |}.
Definition set_chat_data (f : ChatData → ChatData) (w : world) : world :=
  {| bot_data := bot_data w; chat_data := f (chat_data w); database := database w;
     bot := bot w; logged := logged w; links_issued := links_issued w |}.
Definition set_database (f : db.table → db.table) (w : world) : world :=
  {| bot_data := bot_data w; chat_data := chat_data w; database := f (database w);
     bot := bot w; logged := logged w; links_issued := links_issued w |}.
Definition set_bot (f : Bot → Bot) (w : world) : world :=
  {| bot_data := bot_data w; chat_data := chat_data w; database := database w;
     bot := f (bot w); logged := logged w; links_issued := links_issued w |}.
Definition logging_error (line : string) (w : world) : world :=
  {| bot_data := bot_data w; chat_data := chat_data w; database := database w;
     bot := bot w; logged := logged w ++ [line]; links_issued := links_issued w |}.
Definition count_link (w : world) : world :=
  {| bot_data := bot_data w; chat_data := chat_data w; database := database w;
     bot := bot w; logged := logged w; links_issued := S (links_issued w) |}.

(** ** The correlation store: [bot_data]

    [register] is the assignment [context.bot_data[state] = chat_id] of
    [start]; [consume] is [dispatcher.bot_data.pop(state)] of
    [webauth_callback], with [None] for its KeyError. *)

Definition register (state : string) (chat : Z) (bd : gmap string Z) : gmap string Z :=
  <[state := chat]> bd.

Definition consume (state : string) (bd : gmap string Z) : option Z * gmap string Z :=
  (bd !! state, delete state bd).

(** A history of store operations, and the results of the consumes of one
    token along it. *)
Inductive store_op :=
| Register (token : string) (chat : Z)
| Consume (token : string).

Fixpoint consume_results (T : string) (ops : list store_op) (bd : gmap string Z)
  : list (option Z) :=
  match ops with
  | [] => []
  | Register t c :: ops' => consume_results T ops' (register t c bd)
  | Consume t :: ops' =>
      let '(r, bd') := consume t bd in
      if String.eqb t T then r :: consume_results T ops' bd'
      else consume_results T ops' bd'
  end.

Definition is_register_of (T : string) (o : store_op) : bool :=
  match o with Register t _ => String.eqb t T | Consume _ => false end.
Definition is_consume_of (T : string) (o : store_op) : bool :=
  match o with Consume t => String.eqb t T | Register _ _ => false end.
Definition consumes_of (T : string) (ops : list store_op) : nat :=
  length (List.filter (is_consume_of T) ops).
Definition never_registers (T : string) (ops : list store_op) : Prop :=
  Forall (fun o => is_register_of T o = false) ops.

(** ** Handlers as computations: state and exceptions

    A Python exception leaves the mutations made before it in place, so a
    computation returns the world together with its result. *)

Definition M (A : Type) : Type := world → result A * world.

Definition ret {A} (a : A) : M A := fun w => (Ok a, w).
Definition raise {A} (e : exn) : M A := fun w => (Raise e, w).
Definition bind {A B} (m : M A) (k : A → M B) : M B :=
  fun w => match m w with
           | (Ok a, w') => k a w'
           | (Raise e, w') => (Raise e, w')
           end.
Definition gets {A} (f : world → A) : M A := fun w => (Ok (f w), w).
Definition modify (f : world → world) : M unit := fun w => (Ok tt, f w).

(** [try: body except E: handler], with [catches] deciding membership in E. *)
Definition try_except {A} (body : M A) (catches : exn → bool) (handler : M A) : M A :=
  fun w => match body w with
           | (Raise e, w') => if catches e then handler w' else (Raise e, w')
           | r => r
           end.

Definition is_BadRequest (e : exn) : bool :=
  match e with BadRequest _ => true | _ => false end.

Notation "'let*' x ':=' m 'in' k" := (bind m (fun x => k))
  (at level 10, x name, m at level 100, k at level 200).
Notation "'let*' ' p ':=' m 'in' k" := (bind m (fun x => let 'p := x in k))
  (at level 10, p pattern, m at level 100, k at level 200).
Notation "'do' m 'then' k" := (bind m (fun _ => k))
  (at level 10, m at level 100, k at level 200).

(** ** Bot API calls

    Sending always succeeds here: failures of the network are outside the
    model.  Edits and deletions fail as described above. *)

Definition send_message (chat : Z) (text : string) (reply_to : option Z)
    (markup : option InlineKeyboardMarkup) : M Z :=
  fun w =>
    let mid := next_message_id (bot w) in
    let m := {| msg_text := text; reply_markup := markup; reply_to_message_id := reply_to |} in
    (Ok mid,
     set_bot (fun b => {| messages := <[(chat, mid) := m]> (messages b);
                          next_message_id := (mid + 1)%Z |}) w).

Definition edit_message_text (chat mid : Z) (text : string)
    (markup : option InlineKeyboardMarkup) : M unit :=
  fun w =>
    match messages (bot w) !! (chat, mid) with
    | None => (Raise (BadRequest "Message to edit not found"), w)
    | Some m =>
        if decide (msg_text m = text ∧ reply_markup m = markup)
        then (Raise (BadRequest "Message is not modified"), w)
        else
          let m' := {| msg_text := text; reply_markup := markup;
                       reply_to_message_id := reply_to_message_id m |} in
          (Ok tt, set_bot (fun b => {| messages := <[(chat, mid) := m']> (messages b);
                                       next_message_id := next_message_id b |}) w)
    end.

Definition edit_message_reply_markup (chat mid : Z)
    (markup : option InlineKeyboardMarkup) : M unit :=
  fun w =>
    match messages (bot w) !! (chat, mid) with
    | None => (Raise (BadRequest "Message to edit not found"), w)
    | Some m =>
        if decide (reply_markup m = markup)
        then (Raise (BadRequest "Message is not modified"), w)
        else
          let m' := {| msg_text := msg_text m; reply_markup := markup;
                       reply_to_message_id := reply_to_message_id m |} in
          (Ok tt, set_bot (fun b => {| messages := <[(chat, mid) := m']> (messages b);
                                       next_message_id := next_message_id b |}) w)
    end.

Definition delete_message (chat mid : Z) : M unit :=
  fun w =>
    match messages (bot w) !! (chat, mid) with
    | None => (Raise (BadRequest "Message to delete not found"), w)
    | Some _ =>
        (Ok tt, set_bot (fun b => {| messages := delete (chat, mid) (messages b);
                                     next_message_id := next_message_id b |}) w)
    end.

(** ** The handoff channel (multiprocessing.Queue) and its producers *)

(** What may sit on the queue: any picklable object.  The dicts sent by the
    web process hold strings. *)
Inductive ipc_obj :=
| PyBool (b : bool)
| PyDict (d : gmap string string)
| PyNone
| PyInt (z : Z)
| PyStr (s : string).

Definition type_name (o : ipc_obj) : string :=
  match o with
  | PyBool _ => "<class 'bool'>"
  | PyDict _ => "<class 'dict'>"
  | PyNone => "<class 'NoneType'>"
  | PyInt _ => "<class 'int'>"
  | PyStr _ => "<class 'str'>"
  end.

(** engine/fastapi/web.py, [oauth2callback]: what the endpoint puts on the
    queue.  [exchanged] is the outcome of [get_authz_token]: the credentials
    as JSON, or [None] for InvalidGrantError. *)
Definition oauth2callback (state : string) (error : option string)
    (exchanged : option string) : option ipc_obj :=
  match error with
  | Some _ => Some (PyDict {[ gcal.STATE_KEY := state ]})
  | None =>
      match exchanged with
      | None => None
      | Some credentials =>
          Some (PyDict (<[gcal.CREDENTIALS_KEY := credentials]> {[ gcal.STATE_KEY := state ]}))
      end
  end.

(** [CustomUpdater._signal_handler]: [self.ipc_queue.put(True)]. *)
Definition signal_handler_put : ipc_obj := PyBool true.

(** The three messages of the channel and their wire form. *)
Inductive HandoffMessage :=
| Granted (token credentialBlob : string)
| Denied (token : string)
| Shutdown.

Definition on_wire (m : HandoffMessage) : ipc_obj :=
  match m with
  | Granted token blob =>
      PyDict (<[gcal.CREDENTIALS_KEY := blob]> {[ gcal.STATE_KEY := token ]})
  | Denied token => PyDict {[ gcal.STATE_KEY := token ]}
  | Shutdown => signal_handler_put
  end.

(** ** [webauth_callback]: the handoff dispatcher *)

(** One iteration of the [while True] body, after [ipc_queue.get()]. *)
Inductive iteration :=
| Continue (w : world)        (* falls through or [continue] *)
| Break                       (* [break] *)
| Uncaught (e : exn) (w : world).   (* an exception leaves the function *)

Definition webauth_iteration (ipc_data : ipc_obj) (w : world) : iteration :=
  match ipc_data with
  | PyBool _ => Break
  | PyDict d =>
      match d !! gcal.STATE_KEY with
      | None => Uncaught (KeyError gcal.STATE_KEY) w
      | Some state =>
          match consume state (bot_data w) with
          | (None, _) =>
              Continue (logging_error
                "No state data found, likely old authorization link was used" w)
          | (Some chat, bd') =>
              let w1 := set_bot_data (fun _ => bd') w in
              match d !! gcal.CREDENTIALS_KEY with
              | None =>
                  let w2 := logging_error
                    ("No authorization data received because user " +:+ pretty chat
                       +:+ " denied access") w1 in
                  Continue (snd (send_message chat msgs.TG_AUTH_FAILED None None w2))
              | Some credentials =>
                  let w2 := set_database
                    (fun t => db.create_credentials t chat credentials) w1 in
                  Continue (snd (send_message chat msgs.TG_AUTH_COMPLETE None None w2))
              end
          end
      end
  | _ =>
      Continue (logging_error
        ("Unknown type received from web process" +:+ type_name ipc_data) w)
  end.

(** How the thread leaves the loop, or that it is blocked in
    [ipc_queue.get()] on an empty queue. *)
Inductive loop_exit :=
| Stopped            (* [break]: the function returns *)
| Crashed (e : exn)  (* the thread dies with an uncaught exception *)
| Blocked.           (* waiting for the next message *)

(** The loop over the messages already on the queue, in FIFO order; the
    third component is what is left on the queue. *)
Fixpoint webauth_callback (ipc_queue : list ipc_obj) (w : world)
  : loop_exit * world * list ipc_obj :=
  match ipc_queue with
  | [] => (Blocked, w, [])
  | ipc_data :: rest =>
      match webauth_iteration ipc_data w with
      | Break => (Stopped, w, rest)
      | Uncaught e w' => (Crashed e, w', rest)
      | Continue w' => webauth_callback rest w'
      end
  end.

(** ** engine/tg/tg_handlers.py: the conversation engine *)

(** States of the ConversationHandler ([map(chr, range(0, 6))] and
    [ConversationHandler.END]). *)
Inductive State :=
| STATE_CALENDAR_SELECTION
| STATE_ACTION_SELECTION
| STATE_ADD_SHARE
| STATE_ADD_SHARE_ROLE
| STATE_DELETE_SHARE
| STATE_FINISH
| STATE_END.

Global Instance State_eq_dec : EqDecision State.
Proof. solve_decision. Defined.

(** An update, as the dispatch layer hands it to a handler: a command
    message already split into name and [context.args], another text
    message, or a press of an inline button on message [message_id].
    Edited messages are not among the updates modelled. *)
Inductive Update :=
| CommandMessage (chat message_id : Z) (command : string) (args : list string)
| TextMessage (chat message_id : Z) (text : string)
| CallbackQuery (chat message_id : Z) (data : string).

Definition effective_chat_id (u : Update) : Z :=
  match u with
  | CommandMessage c _ _ _ | TextMessage c _ _ | CallbackQuery c _ _ => c
  end.
Definition effective_message_id (u : Update) : Z :=
  match u with
  | CommandMessage _ m _ _ | TextMessage _ m _ | CallbackQuery _ m _ => m
  end.
Definition context_args (u : Update) : list string :=
  match u with CommandMessage _ _ _ args => args | _ => [] end.

Definition join (sep : string) (l : list string) : string :=
  match l with
  | [] => ""
  | x :: l' => fold_left (fun acc y => acc +:+ sep +:+ y) l' x
  end.

(** [update.message.text]; a callback query has no [update.message]. *)
Definition message_text (u : Update) : M string :=
  match u with
  | TextMessage _ _ text => ret text
  | CommandMessage _ _ command args => ret (join " " (("/" +:+ command) :: args))
  | CallbackQuery _ _ _ => raise AttributeError
  end.

(** [update.callback_query.data]; a message has no [update.callback_query]. *)
Definition callback_query_data (u : Update) : M string :=
  match u with
  | CallbackQuery _ _ data => ret data
  | _ => raise AttributeError
  end.

Definition CALLBACK_DELIMITER : Ascii.ascii := "#"%char.
Definition DELIM : string := String CALLBACK_DELIMITER "".
Definition linesep : string := String (Ascii.ascii_of_nat 10) "".

(** [str.split(sep)] for a one-character separator. *)
Fixpoint split (sep : Ascii.ascii) (s : string) : list string :=
  match s with
  | EmptyString => [""]
  | String c s' =>
      if Ascii.eqb c sep then "" :: split sep s'
      else match split sep s' with
           | [] => [String c ""]
           | h :: t => String c h :: t
           end
  end.

(** [cmd, x = data.split(CALLBACK_DELIMITER)] *)
Definition split_callback (data : string) : M (string * string) :=
  match split CALLBACK_DELIMITER data with
  | [cmd; x] => ret (cmd, x)
  | _ => raise ValueError
  end.

Definition lift {A} (r : result A) : M A := fun w => (r, w).

(** Subscript and pop on [context.chat_data]. *)
Definition INITIAL_MSG_KEY : string := "initial_msg".
Definition INLINE_MSG_KEY : string := "inline_msg".
Definition INLINE_CALENDAR_KEY : string := "calendar_name".

Definition subscript {A} (key : string) (field : ChatData → option A) : M A :=
  fun w => match field (chat_data w) with
           | Some v => (Ok v, w)
           | None => (Raise (KeyError key), w)
           end.

Definition set_initial_msg (v : option Z) (cd : ChatData) : ChatData :=
  {| initial_msg := v; inline_msg := inline_msg cd; calendar_name := calendar_name cd |}.
Definition set_inline_msg (v : option Z) (cd : ChatData) : ChatData :=
  {| initial_msg := initial_msg cd; inline_msg := v; calendar_name := calendar_name cd |}.
Definition set_calendar_name (v : option string) (cd : ChatData) : ChatData :=
  {| initial_msg := initial_msg cd; inline_msg := inline_msg cd; calendar_name := v |}.

Definition pop_inline_msg : M Z :=
  let* v := subscript INLINE_MSG_KEY inline_msg in
  do modify (set_chat_data (set_inline_msg None)) then ret v.
Definition pop_initial_msg : M Z :=
  let* v := subscript INITIAL_MSG_KEY initial_msg in
  do modify (set_chat_data (set_initial_msg None)) then ret v.
Definition pop_calendar_name : M string :=
  let* v := subscript INLINE_CALENDAR_KEY calendar_name in
  do modify (set_chat_data (set_calendar_name None)) then ret v.

(** Database calls lifted to handlers. *)
Definition db_get_credentials (chat : Z) : M string :=
  fun w => match db.get_credentials (database w) chat with
           | Some c => (Ok c, w)
           | None => (Raise DoesNotExist, w)
           end.
Definition db_update_credentials (chat : Z) (creds : string) : M unit :=
  fun w => match db.update_credentials (database w) chat creds with
           | Some t => (Ok tt, set_database (fun _ => t) w)
           | None => (Raise DoesNotExist, w)
           end.
Definition db_delete_credentials (chat : Z) : M unit :=
  modify (set_database (fun t => db.delete_credentials t chat)).

(** Keyboards.  The callback payloads are built from the handlers'
    [__name__]s. *)
Definition button (text data : string) : InlineKeyboardButton :=
  {| btn_text := text; callback_data := data |}.

Definition default_keyboard (calendar : string) : InlineKeyboardMarkup :=
  let callback_start := "start" in
  let callback_finish := "finish_conversation" in
  let callback_back := "select_calendar_inline" +:+ DELIM +:+ calendar in
  [ [ button msgs.BUTTON_BACK callback_back; button msgs.BUTTON_START callback_start ];
    [ button msgs.BUTTON_FINISH callback_finish ] ].

Definition calendar_keyboard (calendar : string) : InlineKeyboardMarkup :=
  let callback_add := "add_share_inline" +:+ DELIM +:+ calendar in
  let callback_show := "show_share_inline" +:+ DELIM +:+ calendar in
  let callback_delete := "delete_share_inline" +:+ DELIM +:+ calendar in
  [ [ button msgs.BUTTON_SHOW_SHARE callback_show ];
    [ button msgs.BUTTON_ADD_SHARE callback_add ];
    [ button msgs.BUTTON_DEL_SHARE callback_delete ];
    [ button msgs.BUTTON_START "start"; button msgs.BUTTON_FINISH "finish_conversation" ] ].

Definition add_share_keyboard (calendar username : string) : InlineKeyboardMarkup :=
  let callback_freebusy := "add_share_inline_freebusy" +:+ DELIM +:+ username in
  let callback_reader := "add_share_inline_reader" +:+ DELIM +:+ username in
  let callback_writer := "add_share_inline_writer" +:+ DELIM +:+ username in
  let callback_start := "start" in
  let callback_finish := "finish_conversation" in
  let callback_back := "select_calendar_inline" +:+ DELIM +:+ calendar in
  [ [ button msgs.BUTTON_FREE_BUSY callback_freebusy ];
    [ button msgs.BUTTON_READER callback_reader; button msgs.BUTTON_WRITER callback_writer ];
    [ button msgs.BUTTON_BACK callback_back; button msgs.BUTTON_START callback_start ];
    [ button msgs.BUTTON_FINISH callback_finish ] ].

(** [str(list(keys))] for a list of strings. *)
Definition str_of_list (l : list string) : string :=
  "[" +:+ join ", " (map (fun s => "'" +:+ s +:+ "'") l) +:+ "]".

Section Engine.

(** *** Collaborators

    The e-mail validator and the calls that reach the calendar provider
    are outside the repository; the handlers are written over them.
    A provider call answers with its value or raises HttpError. *)

(** [validate_email(email, check_format=True, check_blacklist=False,
    check_dns=False, check_smtp=False)] *)
Variable validate_email : string → bool.
(** [gcal.get_authz_link()]: the (url, state) pair of the n-th call. *)
Variable gcal_get_authz_link : nat → string * string.
(** In [gcal.str_to_credentials]: the refreshed credentials as JSON when
    [creds.expired and creds.refresh_token], else [None].  Parsing the stored
    JSON and the refresh itself are taken to succeed. *)
Variable gcal_refresh : string → option string.
Variable gcal_get_calendars : string → result (list string).
(** The (name, role) pairs of [gcal.get_acl_users]. *)
Variable gcal_get_acl_users : string → string → result (list (string * string)).
Variable gcal_add_acl_user : string → string → string → string → result unit.
Variable gcal_delete_acl_user : string → string → string → result unit.

Definition get_authz_link : M (string * string) :=
  fun w => (Ok (gcal_get_authz_link (links_issued w)), count_link w).

Definition str_to_credentials (chat : Z) (creds : string) : M string :=
  match gcal_refresh creds with
  | Some refreshed => do db_update_credentials chat refreshed then ret refreshed
  | None => ret creds
  end.

(** *** Internal functions *)

Definition __show_calendars (chat : Z) : M string :=
  let* creds := db_get_credentials chat in
  let* credentials := str_to_credentials chat creds in
  let* calendars := lift (gcal_get_calendars credentials) in
  ret (fold_left (fun acc rec => acc +:+ rec +:+ linesep) calendars "").

Definition __show_share (chat : Z) (calendar : string) : M string :=
  let* creds := db_get_credentials chat in
  let* credentials := str_to_credentials chat creds in
  let* users_list := lift (gcal_get_acl_users credentials calendar) in
  fold_left
    (fun acc rec =>
       let* users := acc in
       match msgs.GCAL_MAP_get (snd rec) with
       | None => raise (KeyError (snd rec))
       | Some access => ret (users +:+ msgs.GCAL_ENTRY (fst rec) access +:+ linesep)
       end)
    users_list (ret "").

Definition __add_share (chat : Z) (calendar email access_type : string) : M string :=
  let* creds := db_get_credentials chat in
  let* credentials := str_to_credentials chat creds in
  do lift (gcal_add_acl_user credentials calendar email access_type) then
  ret (msgs.TG_USER_ADDED email access_type calendar).

Definition __delete_share (chat : Z) (calendar email : string) : M string :=
  let* creds := db_get_credentials chat in
  let* credentials := str_to_credentials chat creds in
  do lift (gcal_delete_acl_user credentials calendar email) then
  ret (msgs.TG_USER_DELETED email calendar).

Definition __revoke_authz (chat : Z) : M string :=
  do db_delete_credentials chat then ret msgs.TG_REVOKE_AUTHZ.

(** *** Conversation handlers *)

Definition start (update : Update) : M State :=
  let chat := effective_chat_id update in
  let* authorized := gets (fun w => db.credentials_exists (database w) chat) in
  if negb authorized then
    let* '(url, state) := get_authz_link in
    do modify (set_bot_data (register state chat)) then
    do send_message chat (msgs.TG_AUTHZ_URL url) None None then
    ret STATE_END
  else
    let* creds := db_get_credentials chat in
    let* credentials := str_to_credentials chat creds in
    let* calendars := lift (gcal_get_calendars credentials) in
    let keyboard :=
      map (fun calendar =>
             [ button calendar ("select_calendar_inline" +:+ DELIM +:+ calendar) ])
          calendars
      ++ [ [ button msgs.BUTTON_REVOKE_AUTHZ "revoke_authz_inline";
             button msgs.BUTTON_FINISH "finish_conversation" ] ] in
    do match update with
       | CallbackQuery _ keyboard_msg _ =>
           (* requested via button: [update.message is None];
              [update.callback_query.answer()] is taken to succeed and changes
              nothing modelled here *)
           try_except
             (edit_message_text chat keyboard_msg msgs.PROMPT_INITIAL_MENU (Some keyboard))
             is_BadRequest (ret tt)
       | _ =>
           let* active := gets (fun w => inline_msg (chat_data w)) in
           match active with
           | Some reply_to =>
               do send_message chat msgs.TG_KEYBOARD_ACTIVE (Some reply_to) None then ret tt
           | None =>
               let* msg := send_message chat msgs.PROMPT_INITIAL_MENU None (Some keyboard) in
               do modify (set_chat_data
                            (set_initial_msg (Some (effective_message_id update)))) then
               modify (set_chat_data (set_inline_msg (Some msg)))
           end
       end then
    ret STATE_CALENDAR_SELECTION.

Definition select_calendar_inline (update : Update) : M State :=
  let* data := callback_query_data update in
  let* '(cmd, calendar) := split_callback data in
  let markup := calendar_keyboard calendar in
  let text := msgs.PROMPT_CHOOSE_ACTION calendar in
  do edit_message_text (effective_chat_id update) (effective_message_id update)
       text (Some markup) then
  ret STATE_ACTION_SELECTION.

Definition show_share_inline (update : Update) : M State :=
  let chat := effective_chat_id update in
  let* data := callback_query_data update in
  let* '(cmd, calendar) := split_callback data in
  let markup := default_keyboard calendar in
  let* text := __show_share chat calendar in
  do edit_message_text chat (effective_message_id update) text (Some markup) then
  ret STATE_ACTION_SELECTION.

Definition add_share_inline (update : Update) : M State :=
  let* data := callback_query_data update in
  let* '(cmd, calendar) := split_callback data in
  do modify (set_chat_data (set_calendar_name (Some calendar))) then
  let text := msgs.PROMPT_SHARE_EMAIL calendar in
  do edit_message_text (effective_chat_id update) (effective_message_id update)
       text (Some (default_keyboard calendar)) then
  ret STATE_ADD_SHARE.

Definition add_share_inline_email (update : Update) : M State :=
  let chat := effective_chat_id update in
  let* message_id := subscript INLINE_MSG_KEY inline_msg in
  let* calendar := subscript INLINE_CALENDAR_KEY calendar_name in
  let* email := message_text update in
  do delete_message chat (effective_message_id update) then
  let valid := validate_email email in
  if negb valid then
    do try_except
         (edit_message_text chat message_id msgs.PROMPT_NOT_EMAIL
            (Some (default_keyboard calendar)))
         is_BadRequest (ret tt) then
    ret STATE_ADD_SHARE
  else
    let text := msgs.PROMPT_CHOOSE_ROLE email calendar in
    do edit_message_text chat message_id text
         (Some (add_share_keyboard calendar email)) then
    ret STATE_ADD_SHARE_ROLE.

Definition add_share_inline_role (update : Update) (access_type : string) : M State :=
  let chat := effective_chat_id update in
  let* message_id := subscript INLINE_MSG_KEY inline_msg in
  let* calendar := pop_calendar_name in
  let* data := callback_query_data update in
  let* '(cmd, email) := split_callback data in
  let* text := __add_share chat calendar email access_type in
  do edit_message_text chat message_id text (Some (default_keyboard calendar)) then
  ret STATE_ACTION_SELECTION.

Definition add_share_inline_freebusy (update : Update) : M State :=
  add_share_inline_role update gcal.FREE_BUSY_READER.
Definition add_share_inline_reader (update : Update) : M State :=
  add_share_inline_role update gcal.READER.
Definition add_share_inline_writer (update : Update) : M State :=
  add_share_inline_role update gcal.WRITER.

Definition delete_share_inline (update : Update) : M State :=
  let* data := callback_query_data update in
  let* '(cmd, calendar) := split_callback data in
  do modify (set_chat_data (set_calendar_name (Some calendar))) then
  let text := msgs.PROMPT_DELETE_EMAIL calendar in
  do edit_message_text (effective_chat_id update) (effective_message_id update)
       text (Some (default_keyboard calendar)) then
  ret STATE_DELETE_SHARE.

Definition delete_share_inline_email (update : Update) : M State :=
  let chat := effective_chat_id update in
  let* message_id := subscript INLINE_MSG_KEY inline_msg in
  let* calendar := subscript INLINE_CALENDAR_KEY calendar_name in
  let* email := message_text update in
  do delete_message chat (effective_message_id update) then
  let valid := validate_email email in
  if negb valid then
    do try_except
         (edit_message_text chat message_id msgs.PROMPT_NOT_EMAIL
            (Some (default_keyboard calendar)))
         is_BadRequest (ret tt) then
    ret STATE_DELETE_SHARE
  else
    let* text := __delete_share chat calendar email in
    do pop_calendar_name then
    do edit_message_text chat message_id text (Some (default_keyboard calendar)) then
    ret STATE_ACTION_SELECTION.

Definition finish_conversation (update : Update) : M State :=
  let chat := effective_chat_id update in
  let* inline_msg_id := pop_inline_msg in
  let* initial_msg_id := pop_initial_msg in
  do modify (set_chat_data (set_calendar_name None)) then
  do edit_message_reply_markup chat inline_msg_id None then
  do delete_message chat inline_msg_id then
  do delete_message chat initial_msg_id then
  ret STATE_END.

Definition revoke_authz_inline (update : Update) : M State :=
  let chat := effective_chat_id update in
  let* text := __revoke_authz chat in
  do send_message chat text None None then
  finish_conversation update.

(** *** Direct commands *)

Definition help (update : Update) : M unit :=
  do send_message (effective_chat_id update) msgs.TG_HELP None None then ret tt.

Definition unknown_cmd (update : Update) : M unit :=
  do send_message (effective_chat_id update) msgs.TG_UNKNOWN None None then ret tt.

Definition show_calendars (update : Update) : M unit :=
  let chat := effective_chat_id update in
  let* text := __show_calendars chat in
  do send_message chat text None None then ret tt.

(** [except HttpError as e: send_message(TG_CALENDAR_NOT_FOUND...); return] *)
Definition report_HttpError {A} (chat : Z) (body : M A) : M (option A) :=
  fun w =>
    match body w with
    | (Ok a, w') => (Ok (Some a), w')
    | (Raise (HttpError details), w') =>
        (do send_message chat (msgs.TG_CALENDAR_NOT_FOUND details) None None then
         ret None) w'
    | (Raise e, w') => (Raise e, w')
    end.

Definition show_share (update : Update) : M unit :=
  let chat := effective_chat_id update in
  match context_args update with
  | [calendar] =>
      let* text := report_HttpError chat (__show_share chat calendar) in
      match text with
      | None => ret tt
      | Some text => do send_message chat text None None then ret tt
      end
  | _ =>
      let response := msgs.TG_INVALID_ARG_NUM 1 in
      do send_message chat response None None then ret tt
  end.

Definition add_share (update : Update) : M unit :=
  let chat := effective_chat_id update in
  match context_args update with
  | [calendar; email; role] =>
      let valid := validate_email email in
      if negb valid then
        do send_message chat msgs.TG_EMAIL_INVALID None None then ret tt
      else
        let keys := msgs.GCAL_MAP_keys in
        if negb (existsb (String.eqb role) keys) then
          let response := msgs.TG_ROLE_INVALID (str_of_list keys) in
          do send_message chat response None None then ret tt
        else
          let* text := report_HttpError chat (__add_share chat calendar email role) in
          match text with
          | None => ret tt
          | Some text => do send_message chat text None None then ret tt
          end
  | _ =>
      let response := msgs.TG_INVALID_ARG_NUM 3 in
      do send_message chat response None None then ret tt
  end.

Definition delete_share (update : Update) : M unit :=
  let chat := effective_chat_id update in
  match context_args update with
  | [calendar; email] =>
      let valid := validate_email email in
      if negb valid then
        do send_message chat msgs.TG_EMAIL_INVALID None None then ret tt
      else
        let* text := report_HttpError chat (__delete_share chat calendar email) in
        match text with
        | None => ret tt
        | Some text => do send_message chat text None None then ret tt
        end
  | _ =>
      let response := msgs.TG_INVALID_ARG_NUM 2 in
      do send_message chat response None None then ret tt
  end.

Definition revoke_authz (update : Update) : M unit :=
  let chat := effective_chat_id update in
  let* text := __revoke_authz chat in
  do send_message chat text None None then ret tt.

(** *** [start_bot]: the handler tables *)

(** When a handler accepts an update. *)
Inductive Matcher :=
| CallbackQueryHandler (pattern : string) (anchored_end : bool)
    (* pattern=f"^{name}" or f"^{name}$" *)
| TextHandler        (* MessageHandler(Filters.text & ~Filters.command, ...) *)
| CommandHandler (command : string)
| AnyCommandHandler. (* MessageHandler(Filters.command, ...) *)

Definition check_update (m : Matcher) (u : Update) : bool :=
  match m, u with
  | CallbackQueryHandler pattern false, CallbackQuery _ _ data => String.prefix pattern data
  | CallbackQueryHandler pattern true, CallbackQuery _ _ data => String.eqb pattern data
  | TextHandler, TextMessage _ _ _ => true
  | CommandHandler command, CommandMessage _ _ c _ => String.eqb command c
  | AnyCommandHandler, CommandMessage _ _ _ _ => true
  | _, _ => false
  end.

Definition Handlers (R : Type) := list (Matcher * (Update → M R)).

Definition first_match {R} (hs : Handlers R) (u : Update) : option (Update → M R) :=
  snd <$> find (fun h => check_update (fst h) u) hs.

Definition calendar_selection_handlers : Handlers State :=
  [ (CallbackQueryHandler "select_calendar_inline" false, select_calendar_inline);
    (CallbackQueryHandler "revoke_authz_inline" false, revoke_authz_inline);
    (CallbackQueryHandler "finish_conversation" true, finish_conversation) ].

Definition action_selection_handlers : Handlers State :=
  [ (CallbackQueryHandler "show_share_inline" false, show_share_inline);
    (CallbackQueryHandler "add_share_inline" false, add_share_inline);
    (CallbackQueryHandler "delete_share_inline" false, delete_share_inline);
    (CallbackQueryHandler "select_calendar_inline" false, select_calendar_inline);
    (CallbackQueryHandler "finish_conversation" true, finish_conversation);
    (CallbackQueryHandler "start" true, start) ].

Definition add_share_handlers : Handlers State :=
  [ (TextHandler, add_share_inline_email);
    (CallbackQueryHandler "select_calendar_inline" false, select_calendar_inline);
    (CallbackQueryHandler "finish_conversation" true, finish_conversation);
    (CallbackQueryHandler "start" true, start) ].

Definition add_share_role_handlers : Handlers State :=
  [ (CallbackQueryHandler "add_share_inline_freebusy" false, add_share_inline_freebusy);
    (CallbackQueryHandler "add_share_inline_reader" false, add_share_inline_reader);
    (CallbackQueryHandler "add_share_inline_writer" false, add_share_inline_writer);
    (CallbackQueryHandler "select_calendar_inline" false, select_calendar_inline);
    (CallbackQueryHandler "finish_conversation" true, finish_conversation);
    (CallbackQueryHandler "start" true, start) ].

Definition delete_share_handlers : Handlers State :=
  [ (TextHandler, delete_share_inline_email);
    (CallbackQueryHandler "select_calendar_inline" false, select_calendar_inline);
    (CallbackQueryHandler "finish_conversation" true, finish_conversation);
    (CallbackQueryHandler "start" true, start) ].

Definition entry_points : Handlers State := [ (CommandHandler "start", start) ].
Definition fallbacks : Handlers State := [ (CommandHandler "start", start) ].

(** [states=...]; a state without an entry has no handlers. *)
Definition states (s : State) : Handlers State :=
  match s with
  | STATE_CALENDAR_SELECTION => calendar_selection_handlers
  | STATE_ACTION_SELECTION => action_selection_handlers
  | STATE_ADD_SHARE => add_share_handlers
  | STATE_ADD_SHARE_ROLE => add_share_role_handlers
  | STATE_DELETE_SHARE => delete_share_handlers
  | STATE_FINISH | STATE_END => []
  end.

Definition registered_methods : Handlers unit :=
  [ (CommandHandler "help", help);
    (CommandHandler "show_calendars", show_calendars);
    (CommandHandler "show_share", show_share);
    (CommandHandler "add_share", add_share);
    (CommandHandler "delete_share", delete_share);
    (CommandHandler "revoke_authz", revoke_authz) ].

Definition unknown_handler : Handlers unit := [ (AnyCommandHandler, unknown_cmd) ].

(** *** ConversationHandler and Dispatcher

    A conversation is [None] when none is running for the chat, else its
    state.  The handler is looked up among the entry points, or among the
    handlers of the state and then the fallbacks; the state it returns
    becomes the state of the conversation, [STATE_END] ends it, and an
    exception leaves the conversation where it was. *)

Definition conv_check_update (conv : option State) (u : Update)
  : option (Update → M State) :=
  match conv with
  | None => first_match entry_points u
  | Some s =>
      match first_match (states s) u with
      | Some h => Some h
      | None => first_match fallbacks u
      end
  end.

Definition update_state (new_state : State) : option State :=
  if decide (new_state = STATE_END) then None else Some new_state.

(** What processing an update leaves behind: the conversation, the world,
    and the exception that escaped the handler, if any. *)
Record processed := {
  conversation : option State;
  after : world;
  escaped : option exn
}.

Definition process_update (conv : option State) (u : Update) (w : world) : processed :=
  match conv_check_update conv u with
  | Some h =>
      match h u w with
      | (Ok new_state, w') =>
          {| conversation := update_state new_state; after := w'; escaped := None |}
      | (Raise e, w') => {| conversation := conv; after := w'; escaped := Some e |}
      end
  | None =>
      match first_match (registered_methods ++ unknown_handler) u with
      | Some h =>
          match h u w with
          | (Ok _, w') => {| conversation := conv; after := w'; escaped := None |}
          | (Raise e, w') => {| conversation := conv; after := w'; escaped := Some e |}
          end
      | None => {| conversation := conv; after := w; escaped := None |}
      end
  end.

End Engine.

(** ** Concrete collaborators and worlds, for the worked examples *)

Module Sample.
(** A format check in the spirit of the validator: one [@] with text on
    both sides. *)
Definition validate_email (email : string) : bool :=
  match split "@"%char email with
  | [user; domain] => negb (String.eqb user "") && negb (String.eqb domain "")
  | _ => false
  end.

(** The n-th authorization link carries the state [Tn]. *)
Definition get_authz_link (n : nat) : string * string :=
  ("https://accounts.google.com/o/oauth2/auth?state=T" +:+ pretty n, "T" +:+ pretty n).

Definition refresh (creds : string) : option string := None.

(** The provider knows one calendar, [mycal]. *)
Definition get_calendars (creds : string) : result (list string) := Ok ["mycal"].
Definition get_acl_users (creds calendar : string) : result (list (string * string)) :=
  if String.eqb calendar "mycal" then Ok [("bob@example.com", "reader")]
  else Raise (HttpError "Not Found").
Definition add_acl_user (creds calendar username access_type : string) : result unit :=
  if String.eqb calendar "mycal" then Ok tt else Raise (HttpError "Not Found").
Definition delete_acl_user (creds calendar username : string) : result unit :=
  if String.eqb calendar "mycal" then Ok tt else Raise (HttpError "Not Found").

Definition start := start get_authz_link refresh get_calendars.
Definition process_update :=
  process_update validate_email get_authz_link refresh get_calendars
    get_acl_users add_acl_user delete_acl_user.

Definition no_bot : Bot := {| messages := ∅; next_message_id := 1 |}.

(** A fresh process: nothing registered, nobody authorized. *)
Definition fresh : world :=
  {| bot_data := ∅; chat_data := chat_data_empty; database := [];
     bot := no_bot; logged := []; links_issued := 0 |}.

(** Chat 7 is authorized and has typed /start (message 10): the menu is
    message 11. *)
Definition authorized : world :=
  {| bot_data := ∅; chat_data := chat_data_empty;
     database := [ {| db.chat_id := 7; db.credentials := "creds7" |} ];
     bot := {| messages := {[ (7%Z, 10%Z) :=
                               {| msg_text := "/start"; reply_markup := None;
                                  reply_to_message_id := None |} ]};
               next_message_id := 11 |};
     logged := []; links_issued := 0 |}.
Definition in_menu : processed :=
  process_update None (CommandMessage 7 10 "start" []) authorized.

(** ... then picked [mycal]: the action menu is shown. *)
Definition in_actions : processed :=
  process_update (conversation in_menu)
    (CallbackQuery 7 11 "select_calendar_inline#mycal") (after in_menu).

(** ... then pressed "add share": the bot waits for an e-mail. *)
Definition awaiting_share_email : processed :=
  process_update (conversation in_actions)
    (CallbackQuery 7 11 "add_share_inline#mycal") (after in_actions).

(** ... or pressed "delete share" instead. *)
Definition awaiting_delete_email : processed :=
  process_update (conversation in_actions)
    (CallbackQuery 7 11 "delete_share_inline#mycal") (after in_actions).

(** The user's next message, as Telegram stores it before the bot sees it. *)
Definition user_says (chat message_id : Z) (text : string) (w : world) : world :=
  set_bot (fun b => {| messages := <[(chat, message_id) :=
                                      {| msg_text := text; reply_markup := None;
                                         reply_to_message_id := None |}]> (messages b);
                       next_message_id := (message_id + 1)%Z |}) w.
End Sample.

(** ** The claims of the specification, as propositions *)

(** "Two consumes yield exactly one success returning the registered chat
    and one NotFound." *)
Definition one_success_one_NotFound (chat : Z) (results : list (option Z)) : Prop :=
  results = [Some chat; None] ∨ results = [None; Some chat].

(** The world after one iteration of the dispatcher. *)
Definition world_after (i : iteration) (w : world) : world :=
  match i with
  | Continue w' => w'
  | Break => w
  | Uncaught _ w' => w'
  end.

Definition dispatch_one (w : world) (m : HandoffMessage) : world :=
  world_after (webauth_iteration (on_wire m) w) w.

(** The store after a history of operations. *)
Fixpoint store_after (ops : list store_op) (bd : gmap string Z) : gmap string Z :=
  match ops with
  | [] => bd
  | Register t c :: ops' => store_after ops' (register t c bd)
  | Consume t :: ops' => store_after ops' (snd (consume t bd))
  end.

(** Two authorization links for one chat: chat 7, not yet authorized, types
    /start twice and gets the links with states T0 and T1; the grant for T0
    arrives first. *)
Module TwoLinks.
Definition first_start : processed :=
  Sample.process_update None (CommandMessage 7 10 "start" []) Sample.fresh.
Definition second_start : processed :=
  Sample.process_update (conversation first_start)
    (CommandMessage 7 12 "start" []) (after first_start).
Definition first_grant : world :=
  dispatch_one (after second_start) (Granted "T0" "B0").
Definition second_grant : world :=
  dispatch_one first_grant (Granted "T1" "B1").
End TwoLinks.

(** A token that is already in the correlation store when the provider
    hands it out again: T0 belongs to chat 1, and the first link issued in
    this world carries T0 too. *)
Module Collision.
Definition taken : world :=
  {| bot_data := {[ "T0" := 1%Z ]}; chat_data := chat_data_empty; database := [];
     bot := Sample.no_bot; logged := []; links_issued := 0 |}.
End Collision.

(** The two states that wait for an e-mail, and where a valid one leads. *)
Definition awaits_email (s : State) : Prop :=
  s = STATE_ADD_SHARE ∨ s = STATE_DELETE_SHARE.

Definition forward (s : State) : State :=
  match s with
  | STATE_ADD_SHARE => STATE_ADD_SHARE_ROLE
  | _ => STATE_ACTION_SELECTION
  end.

(** ** Predicates used by the further properties *)

(** The chat ids of the rows, and the unique constraint on them. *)
Definition chat_ids (t : db.table) : list Z := map db.chat_id t.
Definition unique_chat_ids (t : db.table) : Prop := NoDup (chat_ids t).

(** The two cached message ids are present together or absent together. *)
Definition ids_paired (cd : ChatData) : Prop :=
  is_Some (initial_msg cd) ↔ is_Some (inline_msg cd).

(** Objects on the queue that are neither the sentinel nor a dict. *)
Definition unknown_type (o : ipc_obj) : bool :=
  match o with
  | PyBool _ | PyDict _ => false
  | _ => true
  end.

(** Occurrences of a character in a string. *)
Fixpoint occurrences (sep : Ascii.ascii) (s : string) : nat :=
  match s with
  | EmptyString => O
  | String c s' => (if Ascii.eqb c sep then 1 else 0) + occurrences sep s'
  end.

(** All buttons of a keyboard, row after row. *)
Definition buttons (k : InlineKeyboardMarkup) : list InlineKeyboardButton := concat k.

(** The line logged for an outcome whose token is not in the store. *)
Definition STALE : string := "No state data found, likely old authorization link was used".

(** What every step of the bot keeps: one credential row per chat at most,
    and the two cached message ids present or absent together. *)
Definition well_kept (w : world) : Prop :=
  unique_chat_ids (database w) ∧ ids_paired (chat_data w).

(** * Properties *)

(** ** The correlation store *)

Section CorrelationStore.
Variable T : string.

Lemma register_other t c (bd : gmap string Z) :
  String.eqb t T = false → register t c bd !! T = bd !! T.
Proof.
  intros Hne. unfold register. apply lookup_insert_ne.
  intros ->. rewrite String.eqb_refl in Hne. discriminate.
Qed.

Lemma consume_gone t (bd : gmap string Z) :
  bd !! T = None → snd (consume t bd) !! T = None.
Proof.
  intros Hnone. unfold consume; simpl.
  destruct (decide (t = T)) as [->|Hne].
  - apply lookup_delete_eq.
  - rewrite lookup_delete_ne; done.
Qed.

Lemma consume_other t (bd : gmap string Z) :
  String.eqb t T = false → snd (consume t bd) !! T = bd !! T.
Proof.
  intros Hne. unfold consume; simpl. apply lookup_delete_ne.
  intros ->. rewrite String.eqb_refl in Hne. discriminate.
Qed.

(** Without a register of [T], a store that lacks [T] keeps lacking it. *)
Lemma store_after_absent ops : ∀ bd : gmap string Z,
  bd !! T = None → never_registers T ops → store_after ops bd !! T = None.
Proof.
  induction ops as [|[t c|t] ops IH]; intros bd Hnone Hnr; simpl; [done | |].
  - inversion Hnr as [|? ? Hhd Htl]; subst. simpl in Hhd.
    apply IH; [|done]. by rewrite register_other.
  - inversion Hnr as [|? ? Hhd Htl]; subst.
    apply IH; [|done]. by apply consume_gone.
Qed.

Lemma consume_results_app pre : ∀ post (bd : gmap string Z),
  consume_results T (pre ++ post) bd
  = consume_results T pre bd ++ consume_results T post (store_after pre bd).
Proof.
  induction pre as [|[t c|t] pre IH]; intros post bd; simpl; [done | apply IH |].
  destruct (String.eqb t T); simpl; by rewrite IH.
Qed.

(** Never registered: every consume is NotFound. *)
Lemma consume_results_absent ops : ∀ bd : gmap string Z,
  bd !! T = None → never_registers T ops →
  consume_results T ops bd = replicate (consumes_of T ops) None.
Proof.
  induction ops as [|[t c|t] ops IH]; intros bd Hnone Hnr; [done | |].
  - inversion Hnr as [|? ? Hhd Htl]; subst. simpl in Hhd.
    simpl. apply IH; [|done]. by rewrite register_other.
  - inversion Hnr as [|? ? Hhd Htl]; subst.
    unfold consumes_of. simpl. destruct (String.eqb t T) eqn:Heq.
    + apply String.eqb_eq in Heq as ->. simpl. rewrite Hnone. f_equal.
      apply IH; [|done]. apply lookup_delete_eq.
    + apply IH; [|done]. apply (consume_gone t bd Hnone).
Qed.

(** Registered and not registered again: the first consume wins. *)
Lemma consume_results_present ops : ∀ (bd : gmap string Z) c,
  bd !! T = Some c → never_registers T ops →
  consume_results T ops bd
  = match consumes_of T ops with
    | O => []
    | S n => Some c :: replicate n None
    end.
Proof.
  induction ops as [|[t c'|t] ops IH]; intros bd c Hsome Hnr; [done | |].
  - inversion Hnr as [|? ? Hhd Htl]; subst. simpl in Hhd.
    simpl. apply IH; [|done]. by rewrite register_other.
  - inversion Hnr as [|? ? Hhd Htl]; subst.
    unfold consumes_of. simpl. destruct (String.eqb t T) eqn:Heq.
    + apply String.eqb_eq in Heq as ->. simpl. rewrite Hsome. f_equal.
      apply consume_results_absent; [|done]. apply lookup_delete_eq.
    + apply IH; [|done]. rewrite <- Hsome. apply (consume_other t bd Heq).
Qed.
End CorrelationStore.

(** C1 (as stated): with both consumes ahead of the register, neither
    succeeds, so "one success and one NotFound regardless of the ordering"
    fails. *)
Lemma consume_twice_before_register :
  ¬ one_success_one_NotFound 7
      (consume_results "T" [Consume "T"; Consume "T"; Register "T" 7] ∅).
Proof.
  vm_compute. intros [H|H]; discriminate H.
Qed.

(** C1 (amended): take a token [T] absent from the store.  Along any
    history in which [T] is registered exactly once, to chat [c], every
    consume of [T] before the register is NotFound, the first consume after
    it returns [c], and all later ones are NotFound; along a history that
    never registers [T], every consume of [T] is NotFound.  Hence at most
    one consume ever succeeds, and of two consumes exactly one succeeds as
    soon as one of them follows the register. *)
Theorem consume_at_most_once (T : string) (c : Z) (pre post ops : list store_op)
    (bd : gmap string Z) :
  bd !! T = None →
  never_registers T pre → never_registers T post → never_registers T ops →
  consume_results T (pre ++ Register T c :: post) bd
  = replicate (consumes_of T pre) None
    ++ match consumes_of T post with
       | O => []
       | S n => Some c :: replicate n None
       end
  ∧ consume_results T ops bd = replicate (consumes_of T ops) None.
Proof.
  intros Hnone Hpre Hpost Hops. split.
  - rewrite consume_results_app, (consume_results_absent T pre bd Hnone Hpre).
    f_equal. simpl. apply consume_results_present; [|done].
    unfold register. apply lookup_insert_eq.
  - by apply consume_results_absent.
Qed.

Lemma consume_at_most_once_witness :
  consume_results "T"
    ([Consume "T"; Register "U" 3] ++ Register "T" 7 :: [Consume "U"; Consume "T"; Consume "T"])
    ∅
  = [None; Some 7%Z; None]
  ∧ consume_results "T" [Consume "T"; Register "U" 3; Consume "T"] ∅ = [None; None].
Proof.
  apply (consume_at_most_once "T" 7 [Consume "T"; Register "U" 3]
           [Consume "U"; Consume "T"; Consume "T"]
           [Consume "T"; Register "U" 3; Consume "T"] ∅).
  - reflexivity.
  - repeat constructor.
  - repeat constructor.
  - repeat constructor.
Defined.

(** ** The credential table *)

Lemma get_after_create (t : db.table) (c : Z) (b : string) :
  db.get_credentials (db.create_credentials t c b) c
  = Some (default b (db.get_credentials t c)).
Proof.
  unfold db.get_credentials, db.create_credentials.
  induction t as [|r t IH]; simpl.
  - unfold db.where_chat_id; simpl. by rewrite Z.eqb_refl.
  - destruct (db.where_chat_id c r) eqn:Hr; simpl; [by rewrite Hr|].
    destruct (existsb (db.where_chat_id c) t); simpl in *; by rewrite Hr.
Qed.

Lemma delete_credentials_twice (t : db.table) (c : Z) :
  db.delete_credentials (db.delete_credentials t c) c = db.delete_credentials t c.
Proof.
  unfold db.delete_credentials.
  induction t as [|r t IH]; simpl; [done|].
  destruct (db.where_chat_id c r) eqn:Hr; simpl; [done|].
  by rewrite Hr, IH.
Qed.

Lemma deleted_not_exists (t : db.table) (c : Z) :
  db.credentials_exists (db.delete_credentials t c) c = false.
Proof.
  unfold db.credentials_exists, db.delete_credentials.
  induction t as [|r t IH]; simpl; [done|].
  destruct (db.where_chat_id c r) eqn:Hr; simpl; [done|].
  by rewrite Hr.
Qed.

Lemma delete_absent (t : db.table) (c : Z) :
  db.credentials_exists t c = false → db.delete_credentials t c = t.
Proof.
  unfold db.credentials_exists, db.delete_credentials.
  induction t as [|r t IH]; simpl; [done|].
  intros [Hr Ht]%orb_false_iff. rewrite Hr; simpl. by rewrite IH.
Qed.

Lemma update_after_get (t : db.table) (c : Z) (old new : string) :
  db.get_credentials t c = Some old → is_Some (db.update_credentials t c new).
Proof.
  unfold db.get_credentials, db.update_credentials.
  induction t as [|r t IH]; simpl; [discriminate|].
  destruct (db.where_chat_id c r); [by eexists|].
  intros Hget. destruct (IH Hget) as [t' ->]. by eexists.
Qed.

Lemma exists_after_get (t : db.table) (c : Z) (creds : string) :
  db.get_credentials t c = Some creds → db.credentials_exists t c = true.
Proof.
  unfold db.get_credentials, db.credentials_exists.
  induction t as [|r t IH]; simpl; [discriminate|].
  destruct (db.where_chat_id c r); [done|]. apply IH.
Qed.

(** C10: revoking is total and idempotent.  Deleting the credentials of a
    chat twice leaves the table as deleting them once does, and no record of
    the chat remains; the revoke_authz command never raises, whatever the
    table holds, deletes the chat's record and sends the fixed message
    TG_REVOKE_AUTHZ. *)
Theorem revoke_total_idempotent (t : db.table) (c : Z) (update : Update) (w : world) :
  db.delete_credentials (db.delete_credentials t c) c = db.delete_credentials t c
  ∧ db.credentials_exists (db.delete_credentials t c) c = false
  ∧ ∃ w', revoke_authz update w = (Ok tt, w')
      ∧ database w' = db.delete_credentials (database w) (effective_chat_id update)
      ∧ messages (bot w') !! (effective_chat_id update, next_message_id (bot w))
        = Some {| msg_text := msgs.TG_REVOKE_AUTHZ; reply_markup := None;
                  reply_to_message_id := None |}
      ∧ chat_data w' = chat_data w ∧ bot_data w' = bot_data w.
Proof.
  split; [apply delete_credentials_twice|].
  split; [apply deleted_not_exists|].
  eexists. split; [reflexivity|]. simpl.
  repeat split. apply lookup_insert_eq.
Qed.

(** ** The handoff dispatcher *)

Lemma wire_state_granted (token blob : string) :
  (<[gcal.CREDENTIALS_KEY := blob]> ({[ gcal.STATE_KEY := token ]} : gmap string string))
    !! gcal.STATE_KEY = Some token.
Proof. rewrite lookup_insert_ne; [apply lookup_singleton_eq | discriminate]. Qed.

Lemma wire_credentials_granted (token blob : string) :
  (<[gcal.CREDENTIALS_KEY := blob]> ({[ gcal.STATE_KEY := token ]} : gmap string string))
    !! gcal.CREDENTIALS_KEY = Some blob.
Proof. apply lookup_insert_eq. Qed.

Lemma wire_state_denied (token : string) :
  ({[ gcal.STATE_KEY := token ]} : gmap string string) !! gcal.STATE_KEY = Some token.
Proof. apply lookup_singleton_eq. Qed.

Lemma wire_credentials_denied (token : string) :
  ({[ gcal.STATE_KEY := token ]} : gmap string string) !! gcal.CREDENTIALS_KEY = None.
Proof. apply lookup_singleton_ne. discriminate. Qed.

(** The wire forms are what the two producers put on the queue. *)
Lemma wire_forms_from_producers (token blob error : string) :
  oauth2callback token None (Some blob) = Some (on_wire (Granted token blob))
  ∧ oauth2callback token (Some error) None = Some (on_wire (Denied token))
  ∧ oauth2callback token None None = None
  ∧ signal_handler_put = on_wire Shutdown.
Proof. done. Qed.

(** A Granted or Denied message never ends the loop. *)
Lemma outcome_continues (m : HandoffMessage) (w : world) :
  m ≠ Shutdown → webauth_iteration (on_wire m) w = Continue (dispatch_one w m).
Proof.
  intros Hm. unfold dispatch_one.
  destruct m as [token blob|token|]; [| |done]; unfold on_wire, webauth_iteration.
  - rewrite wire_state_granted, wire_credentials_granted. unfold consume.
    by destruct (bot_data w !! token).
  - rewrite wire_state_denied, wire_credentials_denied. unfold consume.
    by destruct (bot_data w !! token).
Qed.

(** An object that is neither a bool nor a dict is logged and dropped. *)
Lemma unknown_type_dropped (o : ipc_obj) (rest : list ipc_obj) (w : world) :
  o = PyNone ∨ (∃ z, o = PyInt z) ∨ (∃ s, o = PyStr s) →
  webauth_callback (o :: rest) w
  = webauth_callback rest
      (logging_error ("Unknown type received from web process" +:+ type_name o) w).
Proof. intros [->|[[z ->]|[s ->]]]; reflexivity. Qed.

(** A dict without credentials is a denial, not an error. *)
Lemma dict_without_credentials_is_denial (state : string) :
  PyDict {[ gcal.STATE_KEY := state ]} = on_wire (Denied state).
Proof. reflexivity. Qed.

(** C2 (failing input): a dict that lacks the key [state] ends the loop.
    The subscript [ipc_data[gcal.STATE_KEY]] stands outside the try blocks,
    so its KeyError leaves [webauth_callback]; the messages behind it stay
    on the queue, unprocessed. *)
Theorem dict_without_state_kills_dispatcher (d : gmap string string)
    (rest : list ipc_obj) (w : world) :
  d !! gcal.STATE_KEY = None →
  webauth_callback (PyDict d :: rest) w = (Crashed (KeyError gcal.STATE_KEY), w, rest).
Proof. intros Hd. simpl. by rewrite Hd. Qed.

Lemma dict_without_state_kills_dispatcher_witness :
  webauth_callback [PyDict ∅; on_wire (Granted "T0" "B0")] Sample.fresh
  = (Crashed (KeyError "state"), Sample.fresh, [on_wire (Granted "T0" "B0")]).
Proof.
  apply (dict_without_state_kills_dispatcher ∅ [on_wire (Granted "T0" "B0")] Sample.fresh).
  reflexivity.
Defined.

(** Outcomes of the web process ahead of the sentinel.  When the N messages
    before the sentinel are Granted or Denied outcomes in their wire form,
    the loop runs one full iteration on each, in queue order, and then
    returns; whatever was put on the queue after the sentinel is still
    there and has had no effect. *)
Theorem shutdown_determinism (sent : list HandoffMessage) (later : list ipc_obj)
    (w : world) :
  Forall (fun m => m ≠ Shutdown) sent →
  webauth_callback (map on_wire sent ++ on_wire Shutdown :: later) w
  = (Stopped, fold_left dispatch_one sent w, later)
  ∧ Forall (fun m => ∀ w0, webauth_iteration (on_wire m) w0 = Continue (dispatch_one w0 m))
      sent.
Proof.
  intros Hsent. split.
  - revert w. induction Hsent as [|m sent Hm Hsent IH]; intros w; [reflexivity|].
    simpl. rewrite (outcome_continues m w Hm). apply IH.
  - eapply Forall_impl; [exact Hsent|]. intros m Hm w0. by apply outcome_continues.
Qed.

Lemma shutdown_determinism_witness :
  webauth_callback
    (map on_wire [Granted "T0" "B0"; Denied "T1"; Denied "T0"]
       ++ on_wire Shutdown :: [on_wire (Granted "T1" "B1"); PyNone])
    (after TwoLinks.second_start)
  = (Stopped,
     fold_left dispatch_one [Granted "T0" "B0"; Denied "T1"; Denied "T0"]
       (after TwoLinks.second_start),
     [on_wire (Granted "T1" "B1"); PyNone])
  ∧ Forall (fun m => ∀ w0, webauth_iteration (on_wire m) w0 = Continue (dispatch_one w0 m))
      [Granted "T0" "B0"; Denied "T1"; Denied "T0"].
Proof.
  apply (shutdown_determinism [Granted "T0" "B0"; Denied "T1"; Denied "T0"]
           [on_wire (Granted "T1" "B1"); PyNone] (after TwoLinks.second_start)).
  repeat constructor; discriminate.
Defined.



(** On that queue the grant for T0 is lost: chat 7 is told of the denial of
    T1 and nothing more, T0 stays registered and no record is written. *)
Example grant_behind_malformed_dict_lost :
  let '(how, w', unread) :=
    webauth_callback
      [on_wire (Denied "T1"); PyDict ∅; on_wire (Granted "T0" "B0"); on_wire Shutdown]
      (after TwoLinks.second_start) in
  how = Crashed (KeyError "state")
  ∧ unread = [on_wire (Granted "T0" "B0"); on_wire Shutdown]
  ∧ bot_data w' !! "T0" = Some 7%Z
  ∧ db.get_credentials (database w') 7 = None.
Proof. vm_compute. done. Qed.

(** C4 (as stated): chat 7 holds two links; after the grant for T0 stored
    B0, the grant for T1, still registered to chat 7, does not put B1 in the
    record: [create_credentials] does nothing when a record exists. *)
Lemma granted_keeps_existing_record :
  bot_data TwoLinks.first_grant !! "T1" = Some 7%Z
  ∧ db.get_credentials (database TwoLinks.second_grant) 7 = Some "B0"
  ∧ db.get_credentials (database TwoLinks.second_grant) 7 ≠ Some "B1".
Proof. vm_compute. repeat split; discriminate. Qed.

(** C4 (amended): when Granted{T, B} arrives for a token T registered to
    chat C, the dispatcher removes T from the correlation store, sends chat
    C the "authorization complete" message and carries on; it creates the
    record of C with blob B when C has no record, and leaves an existing
    record of C as it is. *)
Theorem granted_handoff (w : world) (T B : string) (C : Z) :
  bot_data w !! T = Some C →
  ∃ w', webauth_iteration (on_wire (Granted T B)) w = Continue w'
    ∧ bot_data w' = delete T (bot_data w)
    ∧ bot_data w' !! T = None
    ∧ database w' = db.create_credentials (database w) C B
    ∧ db.get_credentials (database w') C
      = Some (default B (db.get_credentials (database w) C))
    ∧ messages (bot w') !! (C, next_message_id (bot w))
      = Some {| msg_text := msgs.TG_AUTH_COMPLETE; reply_markup := None;
                reply_to_message_id := None |}.
Proof.
  intros HT. eexists. split.
  - unfold on_wire, webauth_iteration.
    rewrite wire_state_granted, wire_credentials_granted. unfold consume.
    rewrite HT. reflexivity.
  - simpl. repeat split.
    + apply lookup_delete_eq.
    + apply get_after_create.
    + apply lookup_insert_eq.
Qed.

Lemma granted_handoff_witness :
  ∃ w', webauth_iteration (on_wire (Granted "T0" "B0")) (after TwoLinks.second_start)
        = Continue w'
    ∧ bot_data w' = delete "T0" (bot_data (after TwoLinks.second_start))
    ∧ bot_data w' !! "T0" = None
    ∧ database w' = db.create_credentials (database (after TwoLinks.second_start)) 7 "B0"
    ∧ db.get_credentials (database w') 7
      = Some (default "B0" (db.get_credentials (database (after TwoLinks.second_start)) 7))
    ∧ messages (bot w') !! (7%Z, next_message_id (bot (after TwoLinks.second_start)))
      = Some {| msg_text := msgs.TG_AUTH_COMPLETE; reply_markup := None;
                reply_to_message_id := None |}.
Proof.
  apply (granted_handoff (after TwoLinks.second_start) "T0" "B0" 7).
  vm_compute. reflexivity.
Defined.

(** ** The conversation engine *)

Section EngineProperties.
Variable validate_email : string → bool.
Variable gcal_get_authz_link : nat → string * string.
Variable gcal_refresh : string → option string.
Variable gcal_get_calendars : string → result (list string).
Variable gcal_get_acl_users : string → string → result (list (string * string)).
Variable gcal_add_acl_user : string → string → string → string → result unit.
Variable gcal_delete_acl_user : string → string → string → result unit.

Local Abbreviation engine_start :=
  (start gcal_get_authz_link gcal_refresh gcal_get_calendars).
Local Abbreviation engine_process_update :=
  (process_update validate_email gcal_get_authz_link gcal_refresh gcal_get_calendars
     gcal_get_acl_users gcal_add_acl_user gcal_delete_acl_user).

(** [start] for a chat without credentials: the link is issued and its
    state is assigned in the correlation store. *)
Lemma start_unauthorized (update : Update) (w : world) :
  db.credentials_exists (database w) (effective_chat_id update) = false →
  engine_start update w
  = (Ok STATE_END,
     snd (send_message (effective_chat_id update)
            (msgs.TG_AUTHZ_URL (fst (gcal_get_authz_link (links_issued w)))) None None
            (set_bot_data
               (register (snd (gcal_get_authz_link (links_issued w)))
                  (effective_chat_id update))
               (count_link w)))).
Proof.
  intros Hno. unfold start, bind, gets, get_authz_link, modify, ret.
  rewrite Hno. simpl.
  destruct (gcal_get_authz_link (links_issued w)) as [url state]. reflexivity.
Qed.

(** [str_to_credentials] succeeds for a chat whose record was just read,
    and leaves everything but the table alone. *)
Lemma str_to_credentials_ok (chat : Z) (creds : string) (w : world) :
  db.get_credentials (database w) chat = Some creds →
  ∃ t, str_to_credentials gcal_refresh chat creds w
       = (Ok (default creds (gcal_refresh creds)), set_database (fun _ => t) w)
     ∧ (gcal_refresh creds = None → t = database w).
Proof.
  intros Hget. unfold str_to_credentials.
  destruct (gcal_refresh creds) as [refreshed|]; simpl.
  - destruct (update_after_get _ _ _ refreshed Hget) as [t Ht].
    exists t. unfold bind, db_update_credentials, ret. rewrite Ht. split; [done|done].
  - exists (database w). unfold ret. split; [|done]. by destruct w.
Qed.
(** C3 (amended): registering never fails.  For a chat without credentials
    [start] returns normally, having assigned the fresh state to the chat in
    the correlation store: the state maps to this chat afterwards whatever
    it mapped to before, and every other token keeps its mapping.  The code
    has no DuplicateToken error. *)
Theorem register_replaces (update : Update) (w : world) :
  db.credentials_exists (database w) (effective_chat_id update) = false →
  ∃ w', engine_start update w = (Ok STATE_END, w')
    ∧ bot_data w'
      = register (snd (gcal_get_authz_link (links_issued w))) (effective_chat_id update)
          (bot_data w)
    ∧ bot_data w' !! snd (gcal_get_authz_link (links_issued w))
      = Some (effective_chat_id update)
    ∧ ∀ t, t ≠ snd (gcal_get_authz_link (links_issued w)) →
           bot_data w' !! t = bot_data w !! t.
Proof.
  intros Hno. eexists. split; [by apply start_unauthorized|].
  simpl. split; [done|]. unfold register. split.
  - apply lookup_insert_eq.
  - intros t Ht. by apply lookup_insert_ne.
Qed.

(** In every state of a running conversation a typed /start is served by
    the fallback, that is by [start]. *)
Lemma typed_start_goes_to_start (s : State) (chat mid : Z) (args : list string) :
  conv_check_update validate_email gcal_get_authz_link gcal_refresh gcal_get_calendars
    gcal_get_acl_users gcal_add_acl_user gcal_delete_acl_user
    (Some s) (CommandMessage chat mid "start" args)
  = Some engine_start.
Proof. by destruct s. Qed.

(** [start], typed, for an authorized chat whose keyboard is active. *)
Lemma start_keyboard_active (chat mid reply_to : Z) (args calendars : list string)
    (creds : string) (w : world) :
  db.get_credentials (database w) chat = Some creds →
  gcal_get_calendars (default creds (gcal_refresh creds)) = Ok calendars →
  inline_msg (chat_data w) = Some reply_to →
  ∃ w', engine_start (CommandMessage chat mid "start" args) w
        = (Ok STATE_CALENDAR_SELECTION, w')
    ∧ chat_data w' = chat_data w
    ∧ bot_data w' = bot_data w
    ∧ messages (bot w')
      = <[(chat, next_message_id (bot w)) :=
           {| msg_text := msgs.TG_KEYBOARD_ACTIVE; reply_markup := None;
              reply_to_message_id := Some reply_to |}]> (messages (bot w)).
Proof.
  intros Hget Hcal Hactive.
  destruct (str_to_credentials_ok chat creds w Hget) as (t & Hstr & _).
  eexists. split.
  - unfold start, bind, gets, db_get_credentials, lift. simpl.
    rewrite (exists_after_get _ _ _ Hget). simpl. rewrite Hget, Hstr, Hcal. simpl.
    rewrite Hactive. reflexivity.
  - simpl. done.
Qed.

(** C5 (failing input): a typed /start while a keyboard is active leaves
    the cached message ids and calendar name alone and only sends the
    "keyboard active" reply to the prompt message, but [start] still returns
    STATE_CALENDAR_SELECTION, so the conversation moves to that state from
    whatever state it was in. *)
Theorem typed_start_resets_state (s : State) (chat mid reply_to : Z)
    (args calendars : list string) (creds : string) (w : world) :
  db.get_credentials (database w) chat = Some creds →
  gcal_get_calendars (default creds (gcal_refresh creds)) = Ok calendars →
  inline_msg (chat_data w) = Some reply_to →
  let r := engine_process_update (Some s) (CommandMessage chat mid "start" args) w in
  conversation r = Some STATE_CALENDAR_SELECTION
  ∧ escaped r = None
  ∧ chat_data (after r) = chat_data w
  ∧ messages (bot (after r))
    = <[(chat, next_message_id (bot w)) :=
         {| msg_text := msgs.TG_KEYBOARD_ACTIVE; reply_markup := None;
            reply_to_message_id := Some reply_to |}]> (messages (bot w)).
Proof.
  intros Hget Hcal Hactive r.
  destruct (start_keyboard_active chat mid reply_to args calendars creds w Hget Hcal Hactive)
    as (w' & Hstart & Hcd & _ & Hmsgs).
  subst r. unfold process_update.
  rewrite typed_start_goes_to_start, Hstart. simpl. done.
Qed.

(** *** The e-mail gate *)

Ltac run_handler :=
  unfold pop_calendar_name, pop_inline_msg, pop_initial_msg;
  unfold bind, subscript, message_text, callback_query_data, split_callback,
    delete_message, edit_message_text, try_except, modify,
    db_get_credentials, db_update_credentials, str_to_credentials, lift, gets, ret, raise;
  simpl.

Lemma add_share_inline_email_result (chat mid : Z) (text : string) (w w' : world)
    (res : result State) :
  add_share_inline_email validate_email (TextMessage chat mid text) w = (res, w') →
  (∀ s', res = Ok s' →
         s' = if validate_email text then STATE_ADD_SHARE_ROLE else STATE_ADD_SHARE)
  ∧ chat_data w' = chat_data w.
Proof.
  unfold add_share_inline_email. run_handler. intros H.
  repeat (case_match; simplify_eq/=); split; try done; intros s' ?; by simplify_eq.
Qed.

Lemma delete_share_inline_email_result (chat mid : Z) (text : string) (w w' : world)
    (res : result State) :
  delete_share_inline_email validate_email gcal_refresh gcal_delete_acl_user
    (TextMessage chat mid text) w = (res, w') →
  (∀ s', res = Ok s' →
         s' = if validate_email text then STATE_ACTION_SELECTION else STATE_DELETE_SHARE)
  ∧ (validate_email text = false → chat_data w' = chat_data w).
Proof.
  unfold delete_share_inline_email, __delete_share. run_handler. intros H.
  repeat (case_match; simplify_eq/=); split; try done; intros s' ?; by simplify_eq.
Qed.

(** After an invalid e-mail the user's message is deleted and the prompt
    shows PROMPT_NOT_EMAIL above the default keyboard, whether the edit went
    through or was redundant. *)
Ltac reprompt Hv Him Hcn Hne Hu Hshown :=
  let Hsame := fresh "Hsame" in
  run_handler; rewrite Him, Hcn; simpl; rewrite Hu, Hv; simpl;
  rewrite lookup_delete_ne, Hshown by congruence;
  case_decide as Hsame;
  [ eexists; split; [reflexivity|]; simpl;
    rewrite lookup_delete_ne, Hshown by congruence;
    destruct Hsame;
    match goal with
    | |- Some ?shown = _ => destruct shown; simpl in *; by subst
    end
  | eexists; split; [reflexivity|]; simpl; apply lookup_insert_eq ].

Lemma add_share_inline_email_reprompts (chat mid m : Z) (text cal : string)
    (umsg shown : Message) (w : world) :
  validate_email text = false →
  inline_msg (chat_data w) = Some m → calendar_name (chat_data w) = Some cal →
  m ≠ mid →
  messages (bot w) !! (chat, mid) = Some umsg →
  messages (bot w) !! (chat, m) = Some shown →
  ∃ w', add_share_inline_email validate_email (TextMessage chat mid text) w
        = (Ok STATE_ADD_SHARE, w')
    ∧ messages (bot w') !! (chat, m)
      = Some {| msg_text := msgs.PROMPT_NOT_EMAIL;
                reply_markup := Some (default_keyboard cal);
                reply_to_message_id := reply_to_message_id shown |}.
Proof.
  intros Hv Him Hcn Hne Hu Hshown. unfold add_share_inline_email.
  reprompt Hv Him Hcn Hne Hu Hshown.
Qed.

Lemma delete_share_inline_email_reprompts (chat mid m : Z) (text cal : string)
    (umsg shown : Message) (w : world) :
  validate_email text = false →
  inline_msg (chat_data w) = Some m → calendar_name (chat_data w) = Some cal →
  m ≠ mid →
  messages (bot w) !! (chat, mid) = Some umsg →
  messages (bot w) !! (chat, m) = Some shown →
  ∃ w', delete_share_inline_email validate_email gcal_refresh gcal_delete_acl_user
          (TextMessage chat mid text) w
        = (Ok STATE_DELETE_SHARE, w')
    ∧ messages (bot w') !! (chat, m)
      = Some {| msg_text := msgs.PROMPT_NOT_EMAIL;
                reply_markup := Some (default_keyboard cal);
                reply_to_message_id := reply_to_message_id shown |}.
Proof.
  intros Hv Him Hcn Hne Hu Hshown. unfold delete_share_inline_email.
  reprompt Hv Him Hcn Hne Hu Hshown.
Qed.

(** C6: the e-mail gate.  In STATE_ADD_SHARE and STATE_DELETE_SHARE a text
    that is not a valid e-mail leaves the conversation in its state and the
    chat's cached fields as they were, and, the session holding the prompt
    message and the calendar and both messages being in the chat, the prompt
    message then shows PROMPT_NOT_EMAIL with the default keyboard and no
    exception escapes.  The conversation leaves its state only on a valid
    e-mail, and then for STATE_ADD_SHARE_ROLE, respectively
    STATE_ACTION_SELECTION. *)
Theorem email_gate (s : State) (chat mid : Z) (text : string) (w : world) :
  awaits_email s →
  let r := engine_process_update (Some s) (TextMessage chat mid text) w in
  (validate_email text = false →
     conversation r = Some s
     ∧ chat_data (after r) = chat_data w
     ∧ ∀ m cal umsg shown,
         inline_msg (chat_data w) = Some m → calendar_name (chat_data w) = Some cal →
         m ≠ mid →
         messages (bot w) !! (chat, mid) = Some umsg →
         messages (bot w) !! (chat, m) = Some shown →
         escaped r = None
         ∧ messages (bot (after r)) !! (chat, m)
           = Some {| msg_text := msgs.PROMPT_NOT_EMAIL;
                     reply_markup := Some (default_keyboard cal);
                     reply_to_message_id := reply_to_message_id shown |})
  ∧ (conversation r ≠ Some s →
       validate_email text = true ∧ conversation r = Some (forward s)).
Proof.
  intros [-> | ->] r; subst r; unfold process_update; simpl.
  - destruct (add_share_inline_email validate_email (TextMessage chat mid text) w)
      as [res w'] eqn:Hrun.
    destruct (add_share_inline_email_result _ _ _ _ _ _ Hrun) as [Hres Hcd].
    split.
    + intros Hv. repeat split.
      * destruct res as [s'|e]; [|done]. rewrite (Hres s' eq_refl), Hv. done.
      * by destruct res.
      * destruct (add_share_inline_email_reprompts chat mid m text cal umsg shown w)
          as (w2 & Hrun2 & Hm); try done.
        rewrite Hrun in Hrun2. by simplify_eq.
      * destruct (add_share_inline_email_reprompts chat mid m text cal umsg shown w)
          as (w2 & Hrun2 & Hm); try done.
        rewrite Hrun in Hrun2. by simplify_eq.
    + destruct res as [s'|e]; simpl; [|done].
      rewrite (Hres s' eq_refl). by destruct (validate_email text).
  - destruct (delete_share_inline_email validate_email gcal_refresh gcal_delete_acl_user
                (TextMessage chat mid text) w) as [res w'] eqn:Hrun.
    destruct (delete_share_inline_email_result _ _ _ _ _ _ Hrun) as [Hres Hcd].
    split.
    + intros Hv. repeat split.
      * destruct res as [s'|e]; [|done]. rewrite (Hres s' eq_refl), Hv. done.
      * destruct res; simpl; by apply Hcd.
      * destruct (delete_share_inline_email_reprompts chat mid m text cal umsg shown w)
          as (w2 & Hrun2 & Hm); try done.
        rewrite Hrun in Hrun2. by simplify_eq.
      * destruct (delete_share_inline_email_reprompts chat mid m text cal umsg shown w)
          as (w2 & Hrun2 & Hm); try done.
        rewrite Hrun in Hrun2. by simplify_eq.
    + destruct res as [s'|e]; simpl; [|done].
      rewrite (Hres s' eq_refl). by destruct (validate_email text).
Qed.

(** *** Provider errors *)

(** A direct command catches HttpError and reports the provider's detail. *)
Lemma add_share_reports_provider_error (chat mid : Z)
    (calendar email role creds details : string) (w : world) :
  validate_email email = true →
  existsb (String.eqb role) msgs.GCAL_MAP_keys = true →
  db.get_credentials (database w) chat = Some creds →
  gcal_refresh creds = None →
  gcal_add_acl_user creds calendar email role = Raise (HttpError details) →
  add_share validate_email gcal_refresh gcal_add_acl_user
    (CommandMessage chat mid "add_share" [calendar; email; role]) w
  = (Ok tt, snd (send_message chat (msgs.TG_CALENDAR_NOT_FOUND details) None None w)).
Proof.
  intros Hv Hrole Hget Hfresh Hfail.
  unfold add_share. cbn [context_args]. rewrite Hv, Hrole.
  unfold report_HttpError, __add_share. run_handler.
  rewrite Hget, Hfresh. simpl. by rewrite Hfail.
Qed.

(** C8 (failing input): the dialogue does not catch HttpError.  When the
    provider fails on the "show share" button, the exception leaves
    [show_share_inline]: nothing is sent or edited in the chat, so the
    provider's detail reaches nobody. *)
Theorem provider_error_escapes_dialogue (chat mid : Z) (calendar creds details : string)
    (w : world) :
  split CALLBACK_DELIMITER calendar = [calendar] →
  db.get_credentials (database w) chat = Some creds →
  gcal_refresh creds = None →
  gcal_get_acl_users creds calendar = Raise (HttpError details) →
  let r := engine_process_update (Some STATE_ACTION_SELECTION)
             (CallbackQuery chat mid ("show_share_inline" +:+ DELIM +:+ calendar)) w in
  escaped r = Some (HttpError details)
  ∧ after r = w
  ∧ conversation r = Some STATE_ACTION_SELECTION.
Proof.
  intros Hsplit Hget Hfresh Hfail r. subst r.
  unfold process_update. simpl.
  unfold show_share_inline, __show_share. run_handler.
  change ("" +:+ calendar) with calendar. rewrite Hsplit. simpl. rewrite Hget, Hfresh. simpl. rewrite Hfail. done.
Qed.

(** In the role step the calendar name is popped before the provider is
    called, so a provider error also costs the session its calendar. *)
Lemma provider_error_loses_calendar (chat mid m : Z) (email cal creds details : string)
    (w : world) :
  split CALLBACK_DELIMITER email = [email] →
  inline_msg (chat_data w) = Some m →
  calendar_name (chat_data w) = Some cal →
  db.get_credentials (database w) chat = Some creds →
  gcal_refresh creds = None →
  gcal_add_acl_user creds cal email gcal.READER = Raise (HttpError details) →
  let r := engine_process_update (Some STATE_ADD_SHARE_ROLE)
             (CallbackQuery chat mid ("add_share_inline_reader" +:+ DELIM +:+ email)) w in
  escaped r = Some (HttpError details)
  ∧ calendar_name (chat_data (after r)) = None
  ∧ bot (after r) = bot w
  ∧ conversation r = Some STATE_ADD_SHARE_ROLE.
Proof.
  intros Hsplit Him Hcn Hget Hfresh Hfail r. subst r.
  unfold process_update. simpl.
  unfold add_share_inline_reader, add_share_inline_role, __add_share. run_handler.
  rewrite Him. simpl. rewrite Hcn. simpl.
  change ("" +:+ email) with email. rewrite Hsplit. simpl.
  rewrite Hget, Hfresh. simpl. rewrite Hfail. done.
Qed.

(** *** Redundant edits *)

(** [start] from a button swallows the BadRequest of a redundant edit. *)
Lemma start_button_redundant_edit (chat mid : Z) (data creds : string)
    (calendars : list string) (shown : Message) (w : world) :
  db.get_credentials (database w) chat = Some creds →
  gcal_refresh creds = None →
  gcal_get_calendars creds = Ok calendars →
  messages (bot w) !! (chat, mid) = Some shown →
  msg_text shown = msgs.PROMPT_INITIAL_MENU →
  reply_markup shown
  = Some (map (fun calendar =>
                 [ button calendar ("select_calendar_inline" +:+ DELIM +:+ calendar) ])
              calendars
          ++ [ [ button msgs.BUTTON_REVOKE_AUTHZ "revoke_authz_inline";
                 button msgs.BUTTON_FINISH "finish_conversation" ] ]) →
  engine_start (CallbackQuery chat mid data) w = (Ok STATE_CALENDAR_SELECTION, w).
Proof.
  intros Hget Hfresh Hcal Hshown Htext Hmarkup.
  unfold start. run_handler.
  rewrite (exists_after_get _ _ _ Hget). simpl. rewrite Hget, Hfresh. simpl.
  rewrite Hcal, Hshown. simpl. rewrite decide_True; done.
Qed.

(** C9 (failing input): [select_calendar_inline] edits without a guard.
    When the keyboard message already shows the action menu of the calendar
    (a second press of the same calendar button), Telegram answers
    BadRequest and the exception leaves the handler. *)
Theorem redundant_edit_escapes (chat mid : Z) (calendar : string) (shown : Message)
    (w : world) :
  split CALLBACK_DELIMITER calendar = [calendar] →
  messages (bot w) !! (chat, mid) = Some shown →
  msg_text shown = msgs.PROMPT_CHOOSE_ACTION calendar →
  reply_markup shown = Some (calendar_keyboard calendar) →
  let r := engine_process_update (Some STATE_ACTION_SELECTION)
             (CallbackQuery chat mid ("select_calendar_inline" +:+ DELIM +:+ calendar)) w in
  escaped r = Some (BadRequest "Message is not modified")
  ∧ after r = w
  ∧ conversation r = Some STATE_ACTION_SELECTION.
Proof.
  intros Hsplit Hshown Htext Hmarkup r. subst r.
  unfold process_update. simpl.
  unfold select_calendar_inline. run_handler.
  change ("" +:+ calendar) with calendar. rewrite Hsplit. simpl.
  rewrite Hshown. rewrite decide_True; done.
Qed.

End EngineProperties.

(** C3 (as stated): the first link issued in [Collision.taken] carries T0,
    which is registered to chat 1; /start from chat 2 returns normally and
    T0 now maps to chat 2. *)
Lemma register_overwrites_taken_token :
  bot_data Collision.taken !! "T0" = Some 1%Z
  ∧ ∃ w', Sample.start (CommandMessage 2 10 "start" []) Collision.taken
          = (Ok STATE_END, w')
      ∧ bot_data w' !! "T0" = Some 2%Z.
Proof.
  split; [reflexivity|]. eexists. split; [reflexivity|]. vm_compute. reflexivity.
Qed.

Lemma register_replaces_witness :
  ∃ w', Sample.start (CommandMessage 2 10 "start" []) Collision.taken = (Ok STATE_END, w')
    ∧ bot_data w' = register "T0" 2 (bot_data Collision.taken)
    ∧ bot_data w' !! "T0" = Some 2%Z
    ∧ ∀ t, t ≠ "T0" → bot_data w' !! t = bot_data Collision.taken !! t.
Proof.
  apply (register_replaces Sample.get_authz_link Sample.refresh Sample.get_calendars
           (CommandMessage 2 10 "start" []) Collision.taken).
  reflexivity.
Defined.

Lemma typed_start_resets_state_witness :
  let r := Sample.process_update (Some STATE_ACTION_SELECTION)
             (CommandMessage 7 12 "start" []) (after Sample.in_actions) in
  conversation r = Some STATE_CALENDAR_SELECTION
  ∧ escaped r = None
  ∧ chat_data (after r) = chat_data (after Sample.in_actions)
  ∧ messages (bot (after r))
    = <[(7%Z, next_message_id (bot (after Sample.in_actions))) :=
         {| msg_text := msgs.TG_KEYBOARD_ACTIVE; reply_markup := None;
            reply_to_message_id := Some 11%Z |}]>
        (messages (bot (after Sample.in_actions))).
Proof.
  apply (typed_start_resets_state Sample.validate_email Sample.get_authz_link
           Sample.refresh Sample.get_calendars Sample.get_acl_users Sample.add_acl_user
           Sample.delete_acl_user STATE_ACTION_SELECTION 7 12 11 [] ["mycal"] "creds7"
           (after Sample.in_actions)).
  - vm_compute. reflexivity.
  - reflexivity.
  - vm_compute. reflexivity.
Defined.

Lemma email_gate_witness :
  let w := Sample.user_says 7 12 "not-an-email" (after Sample.awaiting_share_email) in
  let r := Sample.process_update (Some STATE_ADD_SHARE) (TextMessage 7 12 "not-an-email") w in
  (Sample.validate_email "not-an-email" = false →
     conversation r = Some STATE_ADD_SHARE
     ∧ chat_data (after r) = chat_data w
     ∧ ∀ m cal umsg shown,
         inline_msg (chat_data w) = Some m → calendar_name (chat_data w) = Some cal →
         m ≠ 12%Z →
         messages (bot w) !! (7%Z, 12%Z) = Some umsg →
         messages (bot w) !! (7%Z, m) = Some shown →
         escaped r = None
         ∧ messages (bot (after r)) !! (7%Z, m)
           = Some {| msg_text := msgs.PROMPT_NOT_EMAIL;
                     reply_markup := Some (default_keyboard cal);
                     reply_to_message_id := reply_to_message_id shown |})
  ∧ (conversation r ≠ Some STATE_ADD_SHARE →
       Sample.validate_email "not-an-email" = true
       ∧ conversation r = Some (forward STATE_ADD_SHARE)).
Proof.
  apply (email_gate Sample.validate_email Sample.get_authz_link Sample.refresh
           Sample.get_calendars Sample.get_acl_users Sample.add_acl_user
           Sample.delete_acl_user STATE_ADD_SHARE 7 12 "not-an-email"
           (Sample.user_says 7 12 "not-an-email" (after Sample.awaiting_share_email))).
  left. reflexivity.
Defined.

(** The gate on the sample dialogue: an invalid text keeps the state and
    shows the re-prompt; a valid e-mail moves on, in both flows. *)
Example invalid_email_reprompts :
  let w := Sample.user_says 7 12 "not-an-email" (after Sample.awaiting_share_email) in
  let r := Sample.process_update (Some STATE_ADD_SHARE) (TextMessage 7 12 "not-an-email") w in
  conversation r = Some STATE_ADD_SHARE
  ∧ escaped r = None
  ∧ messages (bot (after r)) !! (7%Z, 11%Z)
    = Some {| msg_text := msgs.PROMPT_NOT_EMAIL;
              reply_markup := Some (default_keyboard "mycal");
              reply_to_message_id := None |}
  ∧ messages (bot (after r)) !! (7%Z, 12%Z) = None.
Proof. vm_compute. done. Qed.

Example valid_email_asks_role :
  let w := Sample.user_says 7 12 "bob@example.com" (after Sample.awaiting_share_email) in
  let r := Sample.process_update (Some STATE_ADD_SHARE)
             (TextMessage 7 12 "bob@example.com") w in
  conversation r = Some STATE_ADD_SHARE_ROLE ∧ escaped r = None.
Proof. vm_compute. done. Qed.

Example valid_email_revokes :
  let w := Sample.user_says 7 12 "bob@example.com" (after Sample.awaiting_delete_email) in
  let r := Sample.process_update (Some STATE_DELETE_SHARE)
             (TextMessage 7 12 "bob@example.com") w in
  conversation Sample.awaiting_delete_email = Some STATE_DELETE_SHARE
  ∧ conversation r = Some STATE_ACTION_SELECTION ∧ escaped r = None.
Proof. vm_compute. done. Qed.

Lemma provider_error_escapes_dialogue_witness :
  let r := Sample.process_update (Some STATE_ACTION_SELECTION)
             (CallbackQuery 7 11 ("show_share_inline" +:+ DELIM +:+ "gone-cal"))
             (after Sample.in_actions) in
  escaped r = Some (HttpError "Not Found")
  ∧ after r = after Sample.in_actions
  ∧ conversation r = Some STATE_ACTION_SELECTION.
Proof.
  apply (provider_error_escapes_dialogue Sample.validate_email Sample.get_authz_link
           Sample.refresh Sample.get_calendars Sample.get_acl_users Sample.add_acl_user
           Sample.delete_acl_user 7 11 "gone-cal" "creds7" "Not Found"
           (after Sample.in_actions)).
  - reflexivity.
  - vm_compute. reflexivity.
  - reflexivity.
  - reflexivity.
Defined.

(** Scenario E on the sample provider: the direct command does report. *)
Example add_share_unknown_calendar :
  ∃ w', add_share Sample.validate_email Sample.refresh Sample.add_acl_user
          (CommandMessage 7 20 "add_share" ["unknown-cal"; "user@example.com"; "reader"])
          Sample.authorized = (Ok tt, w')
    ∧ messages (bot w') !! (7%Z, 11%Z)
      = Some {| msg_text := msgs.TG_CALENDAR_NOT_FOUND "Not Found";
                reply_markup := None; reply_to_message_id := None |}
    ∧ database w' = database Sample.authorized
    ∧ chat_data w' = chat_data Sample.authorized.
Proof.
  eexists. split.
  - apply add_share_reports_provider_error with (creds := "creds7"); reflexivity.
  - vm_compute. done.
Qed.

Lemma redundant_edit_escapes_witness :
  let r := Sample.process_update (Some STATE_ACTION_SELECTION)
             (CallbackQuery 7 11 ("select_calendar_inline" +:+ DELIM +:+ "mycal"))
             (after Sample.in_actions) in
  escaped r = Some (BadRequest "Message is not modified")
  ∧ after r = after Sample.in_actions
  ∧ conversation r = Some STATE_ACTION_SELECTION.
Proof.
  apply (redundant_edit_escapes Sample.validate_email Sample.get_authz_link
           Sample.refresh Sample.get_calendars Sample.get_acl_users Sample.add_acl_user
           Sample.delete_acl_user 7 11 "mycal"
           {| msg_text := msgs.PROMPT_CHOOSE_ACTION "mycal";
              reply_markup := Some (calendar_keyboard "mycal");
              reply_to_message_id := None |}
           (after Sample.in_actions)).
  - reflexivity.
  - vm_compute. reflexivity.
  - reflexivity.
  - reflexivity.
Defined.

(** The dead keyboard after a typed /start: the action menu is still shown,
    the conversation is in STATE_CALENDAR_SELECTION, and its "show share"
    button no longer reaches any handler. *)
Example keyboard_dead_after_typed_start :
  let r := Sample.process_update (Some STATE_ACTION_SELECTION)
             (CommandMessage 7 12 "start" []) (after Sample.in_actions) in
  let r' := Sample.process_update (conversation r)
              (CallbackQuery 7 11 "show_share_inline#mycal") (after r) in
  conversation r = Some STATE_CALENDAR_SELECTION
  ∧ after r' = after r ∧ conversation r' = conversation r.
Proof. vm_compute. done. Qed.

(** * Further properties of the code *)

(** ** engine/sqlite/database.py *)

Lemma not_exists_not_in (t : db.table) (c : Z) :
  db.credentials_exists t c = false → c ∉ chat_ids t.
Proof.
  unfold db.credentials_exists, chat_ids.
  induction t as [|r t IH]; simpl; [intros _; apply not_elem_of_nil|].
  intros [Hr Ht]%orb_false_iff. apply not_elem_of_cons. split; [|by apply IH].
  unfold db.where_chat_id in Hr. apply Z.eqb_neq in Hr. congruence.
Qed.

Lemma chat_ids_update (t t' : db.table) (c : Z) (new : string) :
  db.update_credentials t c new = Some t' → chat_ids t' = chat_ids t.
Proof.
  unfold db.update_credentials, chat_ids. revert t'.
  induction t as [|r t IH]; simpl; intros t' Hup; [discriminate|].
  destruct (db.where_chat_id c r).
  - by simplify_eq.
  - destruct (db.save_first t c new) as [t2|]; simplify_eq/=. f_equal. by apply IH.
Qed.

Lemma chat_ids_delete (t : db.table) (c : Z) :
  chat_ids (db.delete_credentials t c) = List.filter (fun i => negb (Z.eqb i c)) (chat_ids t).
Proof.
  unfold db.delete_credentials, chat_ids, db.where_chat_id.
  induction t as [|r t IH]; simpl; [done|].
  destruct (db.chat_id r =? c)%Z; simpl; by rewrite IH.
Qed.

Lemma NoDup_filter_bool (f : Z → bool) (l : list Z) :
  NoDup l → NoDup (List.filter f l).
Proof.
  induction 1 as [|x l Hx Hl IH]; simpl; [constructor|].
  destruct (f x); [|done]. constructor; [|done].
  rewrite list_elem_of_In, filter_In, <- list_elem_of_In. tauto.
Qed.

Lemma unique_preserved (t : db.table) (c : Z) (creds : string) :
  unique_chat_ids t →
  unique_chat_ids (db.create_credentials t c creds)
  ∧ unique_chat_ids (db.delete_credentials t c)
  ∧ ∀ t', db.update_credentials t c creds = Some t' → unique_chat_ids t'.
Proof.
  unfold unique_chat_ids. intros Hu. repeat split.
  - unfold db.create_credentials.
    destruct (existsb (db.where_chat_id c) t) eqn:Hex; simpl; [done|].
    unfold chat_ids. rewrite map_app. simpl. apply NoDup_app. repeat split; [done| |].
    + intros x Hx ->%list_elem_of_singleton. by apply (not_exists_not_in t c Hex).
    + apply NoDup_singleton.
  - rewrite chat_ids_delete. by apply NoDup_filter_bool.
  - intros t' Hup. by rewrite (chat_ids_update _ _ _ _ Hup).
Qed.

Lemma unique_create (t : db.table) (c : Z) (creds : string) :
  unique_chat_ids t → unique_chat_ids (db.create_credentials t c creds).
Proof. intros Hu. by destruct (unique_preserved t c creds Hu). Qed.

Lemma unique_delete (t : db.table) (c : Z) :
  unique_chat_ids t → unique_chat_ids (db.delete_credentials t c).
Proof. intros Hu. by destruct (unique_preserved t c "" Hu) as (_ & ? & _). Qed.

Lemma unique_update (t t' : db.table) (c : Z) (creds : string) :
  unique_chat_ids t → db.update_credentials t c creds = Some t' → unique_chat_ids t'.
Proof. intros Hu. destruct (unique_preserved t c creds Hu) as (_ & _ & H). apply H. Qed.

(** X1: the unique constraint on chat_id is never violated.  From a table
    with one row per chat at most, creating, updating and deleting
    credentials lead to such a table again. *)
Theorem credentials_stay_unique (t : db.table) (c : Z) (creds : string) :
  unique_chat_ids t →
  unique_chat_ids (db.create_credentials t c creds)
  ∧ unique_chat_ids (db.delete_credentials t c)
  ∧ ∀ t', db.update_credentials t c creds = Some t' → unique_chat_ids t'.
Proof. apply unique_preserved. Qed.

Lemma credentials_stay_unique_witness :
  let t := [ {| db.chat_id := 7; db.credentials := "a" |};
             {| db.chat_id := 9; db.credentials := "b" |} ] in
  unique_chat_ids (db.create_credentials t 8 "c")
  ∧ unique_chat_ids (db.delete_credentials t 8)
  ∧ ∀ t', db.update_credentials t 8 "c" = Some t' → unique_chat_ids t'.
Proof.
  apply (credentials_stay_unique
           [ {| db.chat_id := 7; db.credentials := "a" |};
             {| db.chat_id := 9; db.credentials := "b" |} ] 8 "c").
  unfold unique_chat_ids. simpl. apply NoDup_cons. split.
  - intros H%list_elem_of_singleton. discriminate.
  - apply NoDup_singleton.
Defined.

Lemma get_other_row (t : db.table) (r : db.GCalendarCred) (c : Z) :
  db.where_chat_id c r = false →
  db.get_credentials (r :: t) c = db.get_credentials t c.
Proof. intros Hr. unfold db.get_credentials. simpl. by rewrite Hr. Qed.

(** X2: update, then get.  When [update_credentials] finds the record, the
    table afterwards returns the new credentials for the chat, every other
    chat reads what it read before, and no row is added or removed. *)
Theorem update_then_get (t t' : db.table) (c : Z) (new : string) :
  db.update_credentials t c new = Some t' →
  db.get_credentials t' c = Some new
  ∧ (∀ c', c' ≠ c → db.get_credentials t' c' = db.get_credentials t c')
  ∧ chat_ids t' = chat_ids t.
Proof.
  intros Hup. split; [|split; [|by eapply chat_ids_update]].
  - revert t' Hup. unfold db.update_credentials, db.get_credentials.
    induction t as [|r t IH]; simpl; intros t' Hup; [discriminate|].
    destruct (db.where_chat_id c r) eqn:Hr.
    + simplify_eq. simpl. unfold db.where_chat_id in *. simpl. by rewrite Hr.
    + destruct (db.save_first t c new) as [t2|]; simplify_eq/=. rewrite Hr. by apply IH.
  - intros c' Hne. revert t' Hup. unfold db.update_credentials, db.get_credentials.
    induction t as [|r t IH]; simpl; intros t' Hup; [discriminate|].
    destruct (db.where_chat_id c r) eqn:Hr.
    + simplify_eq. simpl. unfold db.where_chat_id in *. simpl.
      apply Z.eqb_eq in Hr. rewrite Hr.
      destruct (c =? c')%Z eqn:Hcc; [|done]. apply Z.eqb_eq in Hcc. congruence.
    + destruct (db.save_first t c new) as [t2|]; simplify_eq/=.
      destruct (db.where_chat_id c' r); [done|]. by apply IH.
Qed.

Lemma update_then_get_witness :
  let t := [ {| db.chat_id := 7; db.credentials := "a" |};
             {| db.chat_id := 9; db.credentials := "b" |} ] in
  let t' := [ {| db.chat_id := 7; db.credentials := "a" |};
              {| db.chat_id := 9; db.credentials := "fresh" |} ] in
  db.get_credentials t' 9 = Some "fresh"
  ∧ (∀ c', c' ≠ 9%Z → db.get_credentials t' c' = db.get_credentials t c')
  ∧ chat_ids t' = chat_ids t.
Proof.
  apply (update_then_get
           [ {| db.chat_id := 7; db.credentials := "a" |};
             {| db.chat_id := 9; db.credentials := "b" |} ]
           [ {| db.chat_id := 7; db.credentials := "a" |};
             {| db.chat_id := 9; db.credentials := "fresh" |} ] 9 "fresh").
  reflexivity.
Defined.

Lemma missing_record (t : db.table) (c : Z) (new : string) :
  (db.update_credentials t c new = None ↔ db.credentials_exists t c = false)
  ∧ (db.get_credentials t c = None ↔ db.credentials_exists t c = false).
Proof.
  unfold db.update_credentials, db.get_credentials, db.credentials_exists.
  induction t as [|r t [IHu IHg]]; simpl; [done|].
  destruct (db.where_chat_id c r); simpl; [split; split; discriminate|].
  split; [|done].
  destruct (db.save_first t c new); simpl in *; split; intros H; try done.
  - apply IHu in H. discriminate.
  - by apply IHu.
Qed.

(** X3: update fails exactly on a missing record.  [update_credentials]
    raises DoesNotExist if and only if [credentials_exists] is false, and so
    does [get_credentials]. *)
Theorem missing_record_iff (t : db.table) (c : Z) (new : string) :
  (db.update_credentials t c new = None ↔ db.credentials_exists t c = false)
  ∧ (db.get_credentials t c = None ↔ db.credentials_exists t c = false).
Proof. apply missing_record. Qed.

(** X4: a record created for a chat that had none is removed again by
    delete, which gives back the table as it was; in between, the chat reads
    the created credentials. *)
Theorem create_then_delete (t : db.table) (c : Z) (creds : string) :
  db.credentials_exists t c = false →
  db.get_credentials (db.create_credentials t c creds) c = Some creds
  ∧ db.delete_credentials (db.create_credentials t c creds) c = t.
Proof.
  intros Hno. split.
  - rewrite get_after_create.
    destruct (missing_record t c creds) as [_ [_ Hget]]. by rewrite (Hget Hno).
  - unfold db.create_credentials. unfold db.credentials_exists in Hno. rewrite Hno. simpl.
    unfold db.delete_credentials. rewrite List.filter_app. simpl.
    unfold db.where_chat_id at 2. simpl. rewrite Z.eqb_refl. simpl.
    rewrite app_nil_r. by apply delete_absent.
Qed.

Lemma create_then_delete_witness :
  let t := [ {| db.chat_id := 7; db.credentials := "a" |} ] in
  db.get_credentials (db.create_credentials t 8 "c") 8 = Some "c"
  ∧ db.delete_credentials (db.create_credentials t 8 "c") 8 = t.
Proof.
  apply (create_then_delete [ {| db.chat_id := 7; db.credentials := "a" |} ] 8 "c").
  reflexivity.
Defined.

Lemma other_chats_row_create (t : db.table) (c c' : Z) (creds : string) :
  c' ≠ c →
  db.get_credentials (db.create_credentials t c creds) c' = db.get_credentials t c'
  ∧ db.credentials_exists (db.create_credentials t c creds) c' = db.credentials_exists t c'.
Proof.
  intros Hne.
  assert (db.where_chat_id c' {| db.chat_id := c; db.credentials := creds |} = false) as Hnew.
  { unfold db.where_chat_id. simpl. apply Z.eqb_neq. congruence. }
  unfold db.get_credentials, db.credentials_exists, db.create_credentials.
  split.
  - destruct (existsb (db.where_chat_id c) t); simpl; [done|].
    induction t as [|r t IH]; simpl; [by rewrite Hnew|].
    destruct (db.where_chat_id c' r); [done|]. apply IH.
  - destruct (existsb (db.where_chat_id c) t); simpl; [done|].
    rewrite existsb_app. simpl. rewrite Hnew. by rewrite !orb_false_r.
Qed.

(** X5: the records of other chats are out of reach.  Creating or deleting
    the credentials of one chat leaves what every other chat reads, and
    whether it exists, as it was. *)
Theorem other_chats_untouched (t : db.table) (c c' : Z) (creds : string) :
  c' ≠ c →
  db.get_credentials (db.create_credentials t c creds) c' = db.get_credentials t c'
  ∧ db.get_credentials (db.delete_credentials t c) c' = db.get_credentials t c'
  ∧ db.credentials_exists (db.create_credentials t c creds) c' = db.credentials_exists t c'
  ∧ db.credentials_exists (db.delete_credentials t c) c' = db.credentials_exists t c'.
Proof.
  intros Hne.
  assert (db.where_chat_id c' {| db.chat_id := c; db.credentials := creds |} = false) as Hnew.
  { unfold db.where_chat_id. simpl. apply Z.eqb_neq. congruence. }
  unfold db.get_credentials, db.credentials_exists, db.create_credentials,
    db.delete_credentials.
  repeat split.
  - destruct (existsb (db.where_chat_id c) t); simpl; [done|].
    induction t as [|r t IH]; simpl; [by rewrite Hnew|].
    destruct (db.where_chat_id c' r); [done|]. apply IH.
  - induction t as [|r t IH]; simpl; [done|].
    destruct (db.where_chat_id c r) eqn:Hr; simpl.
    + destruct (db.where_chat_id c' r) eqn:Hr'; [|done].
      unfold db.where_chat_id in *. apply Z.eqb_eq in Hr, Hr'. congruence.
    + destruct (db.where_chat_id c' r); [done|]. apply IH.
  - destruct (existsb (db.where_chat_id c) t); simpl; [done|].
    rewrite existsb_app. simpl. rewrite Hnew. by rewrite !orb_false_r.
  - induction t as [|r t IH]; simpl; [done|].
    destruct (db.where_chat_id c r) eqn:Hr; simpl.
    + destruct (db.where_chat_id c' r) eqn:Hr'; [|done].
      unfold db.where_chat_id in *. apply Z.eqb_eq in Hr, Hr'. congruence.
    + by rewrite IH.
Qed.

Lemma other_chats_untouched_witness :
  let t := [ {| db.chat_id := 7; db.credentials := "a" |};
             {| db.chat_id := 9; db.credentials := "b" |} ] in
  db.get_credentials (db.create_credentials t 8 "c") 9 = db.get_credentials t 9
  ∧ db.get_credentials (db.delete_credentials t 8) 9 = db.get_credentials t 9
  ∧ db.credentials_exists (db.create_credentials t 8 "c") 9 = db.credentials_exists t 9
  ∧ db.credentials_exists (db.delete_credentials t 8) 9 = db.credentials_exists t 9.
Proof.
  apply (other_chats_untouched
           [ {| db.chat_id := 7; db.credentials := "a" |};
             {| db.chat_id := 9; db.credentials := "b" |} ] 8 9 "c").
  discriminate.
Defined.

(** ** The handoff dispatcher, further *)

(** X6: a denial.  When Denied{T} arrives for a token T registered to chat
    C, the dispatcher removes T from the correlation store, logs the denial,
    sends chat C the TG_AUTH_FAILED text and carries on; the credential
    table is not touched. *)
Theorem denied_handoff (w : world) (T : string) (C : Z) :
  bot_data w !! T = Some C →
  ∃ w', webauth_iteration (on_wire (Denied T)) w = Continue w'
    ∧ bot_data w' = delete T (bot_data w)
    ∧ database w' = database w
    ∧ logged w'
      = logged w ++ ["No authorization data received because user " +:+ pretty C
                       +:+ " denied access"]
    ∧ messages (bot w')
      = <[(C, next_message_id (bot w)) :=
           {| msg_text := msgs.TG_AUTH_FAILED; reply_markup := None;
              reply_to_message_id := None |}]> (messages (bot w)).
Proof.
  intros HT. eexists. split.
  - unfold on_wire, webauth_iteration.
    rewrite wire_state_denied, wire_credentials_denied. unfold consume.
    rewrite HT. reflexivity.
  - simpl. done.
Qed.

Lemma denied_handoff_witness :
  ∃ w', webauth_iteration (on_wire (Denied "T1")) (after TwoLinks.second_start)
        = Continue w'
    ∧ bot_data w' = delete "T1" (bot_data (after TwoLinks.second_start))
    ∧ database w' = database (after TwoLinks.second_start)
    ∧ logged w'
      = logged (after TwoLinks.second_start)
        ++ ["No authorization data received because user " +:+ pretty 7%Z
              +:+ " denied access"]
    ∧ messages (bot w')
      = <[(7%Z, next_message_id (bot (after TwoLinks.second_start))) :=
           {| msg_text := msgs.TG_AUTH_FAILED; reply_markup := None;
              reply_to_message_id := None |}]>
          (messages (bot (after TwoLinks.second_start))).
Proof.
  apply (denied_handoff (after TwoLinks.second_start) "T1" 7).
  vm_compute. reflexivity.
Defined.

Lemma stale_iteration (m : HandoffMessage) (T : string) (w : world) :
  (∃ B, m = Granted T B) ∨ m = Denied T →
  bot_data w !! T = None →
  webauth_iteration (on_wire m) w = Continue (logging_error STALE w).
Proof.
  intros [[B ->]| ->] HT; unfold on_wire, webauth_iteration.
  - rewrite wire_state_granted. unfold consume. by rewrite HT.
  - rewrite wire_state_denied. unfold consume. by rewrite HT.
Qed.

(** X7: a stale outcome.  A Granted or Denied message whose token is not in
    the correlation store costs one log line and nothing else: no message is
    sent, no record is written, and the loop goes on. *)
Theorem stale_outcome_only_logs (T B : string) (w : world) :
  bot_data w !! T = None →
  webauth_iteration (on_wire (Granted T B)) w = Continue (logging_error STALE w)
  ∧ webauth_iteration (on_wire (Denied T)) w = Continue (logging_error STALE w).
Proof.
  intros HT. split; apply (stale_iteration _ T); eauto.
Qed.

Lemma stale_outcome_only_logs_witness :
  webauth_iteration (on_wire (Granted "old" "B")) Sample.fresh
  = Continue (logging_error STALE Sample.fresh)
  ∧ webauth_iteration (on_wire (Denied "old")) Sample.fresh
    = Continue (logging_error STALE Sample.fresh).
Proof.
  apply (stale_outcome_only_logs "old" "B" Sample.fresh). reflexivity.
Defined.

(** X8: a replayed outcome.  Delivering the same Granted or Denied message a
    second time, right after the first, only adds the stale-link log line:
    the chat is not notified twice and the table is not written twice,
    whether or not the first delivery found the token. *)
Theorem replay_is_stale (m : HandoffMessage) (w : world) :
  m ≠ Shutdown →
  dispatch_one (dispatch_one w m) m = logging_error STALE (dispatch_one w m).
Proof.
  intros Hm.
  assert (∃ T, ((∃ B, m = Granted T B) ∨ m = Denied T)
               ∧ bot_data (dispatch_one w m) !! T = None) as (T & Hshape & Hgone).
  { destruct m as [T B|T|]; [exists T|exists T|done]; (split; [eauto|]).
    - unfold dispatch_one, on_wire, webauth_iteration.
      rewrite wire_state_granted, wire_credentials_granted. unfold consume.
      destruct (bot_data w !! T) eqn:HT; simpl; [apply lookup_delete_eq|done].
    - unfold dispatch_one, on_wire, webauth_iteration.
      rewrite wire_state_denied, wire_credentials_denied. unfold consume.
      destruct (bot_data w !! T) eqn:HT; simpl; [apply lookup_delete_eq|done]. }
  unfold dispatch_one at 1. by rewrite (stale_iteration m T _ Hshape Hgone).
Qed.

Lemma replay_is_stale_witness :
  dispatch_one (dispatch_one (after TwoLinks.second_start) (Granted "T0" "B0"))
    (Granted "T0" "B0")
  = logging_error STALE (dispatch_one (after TwoLinks.second_start) (Granted "T0" "B0")).
Proof.
  apply (replay_is_stale (Granted "T0" "B0") (after TwoLinks.second_start)).
  discriminate.
Defined.

(** X9: objects of unknown type.  A queue holding only objects that are
    neither bool nor dict is drained to the end: the loop logs one line per
    object, in queue order, changes nothing else and waits for more. *)
Theorem unknown_objects_logged (q : list ipc_obj) (w : world) :
  Forall (fun o => unknown_type o = true) q →
  ∃ w', webauth_callback q w = (Blocked, w', [])
    ∧ logged w'
      = logged w ++ map (fun o => "Unknown type received from web process" +:+ type_name o) q
    ∧ bot_data w' = bot_data w ∧ chat_data w' = chat_data w
    ∧ database w' = database w ∧ bot w' = bot w.
Proof.
  intros Hq. revert w. induction Hq as [|o q Ho Hq IH]; intros w.
  - exists w. simpl. by rewrite app_nil_r.
  - destruct (IH (logging_error
                    ("Unknown type received from web process" +:+ type_name o) w))
      as (w' & Hrun & Hlog & Hrest).
    exists w'. split.
    + destruct o; try discriminate Ho; exact Hrun.
    + split; [|exact Hrest]. rewrite Hlog. simpl. by rewrite <- app_assoc.
Qed.

Lemma unknown_objects_logged_witness :
  ∃ w', webauth_callback [PyNone; PyInt 3; PyStr "x"] Sample.fresh = (Blocked, w', [])
    ∧ logged w'
      = logged Sample.fresh
        ++ map (fun o => "Unknown type received from web process" +:+ type_name o)
             [PyNone; PyInt 3; PyStr "x"]
    ∧ bot_data w' = bot_data Sample.fresh ∧ chat_data w' = chat_data Sample.fresh
    ∧ database w' = database Sample.fresh ∧ bot w' = bot Sample.fresh.
Proof.
  apply (unknown_objects_logged [PyNone; PyInt 3; PyStr "x"] Sample.fresh).
  repeat constructor.
Defined.

(** X10: messages may arrive in batches.  If the loop has drained a queue
    and waits, then with further messages behind the same queue it behaves
    as the loop started on those messages in the world the first batch left;
    and if it broke or crashed on the first batch, messages behind it change
    nothing but the rest of the queue. *)
Theorem webauth_callback_app (q1 q2 : list ipc_obj) (w : world) :
  match webauth_callback q1 w with
  | (Blocked, w1, _) => webauth_callback (q1 ++ q2) w = webauth_callback q2 w1
  | (exit, w1, rest) => webauth_callback (q1 ++ q2) w = (exit, w1, rest ++ q2)
  end.
Proof.
  revert w. induction q1 as [|o q1 IH]; intros w; simpl; [done|].
  destruct (webauth_iteration o w) as [w'| |e w']; [apply IH|done|done].
Qed.

Lemma iteration_frame (o : ipc_obj) (w : world) :
  let w' := world_after (webauth_iteration o w) w in
  chat_data w' = chat_data w
  ∧ links_issued w' = links_issued w
  ∧ (∀ t c, bot_data w' !! t = Some c → bot_data w !! t = Some c)
  ∧ (∀ c x, db.get_credentials (database w) c = Some x →
            db.get_credentials (database w') c = Some x)
  ∧ (∃ lines, logged w' = logged w ++ lines).
Proof.
  assert (∀ (t k : string) (c : Z), delete k (bot_data w) !! t = Some c →
                                    bot_data w !! t = Some c) as Hdel.
  { intros t k c. rewrite lookup_delete_Some. tauto. }
  destruct o as [b|d| | |]; simpl.
  - repeat split; try done. exists []. by rewrite app_nil_r.
  - destruct (d !! gcal.STATE_KEY) as [state|]; simpl;
      [|repeat split; try done; exists []; by rewrite app_nil_r].
    destruct (bot_data w !! state) as [chat|] eqn:Hstate; simpl;
      [|repeat split; try done; by eexists].
    destruct (d !! gcal.CREDENTIALS_KEY) as [credentials|]; simpl.
    + repeat split; try done; [intros t c; apply Hdel| |exists []; by rewrite app_nil_r].
      intros c x Hget. destruct (decide (c = chat)) as [->|Hne].
      * rewrite get_after_create, Hget. done.
      * by destruct (other_chats_row_create (database w) chat c credentials Hne) as [-> _].
    + repeat split; try done; [intros t c; apply Hdel|by eexists].
  - repeat split; try done. by eexists.
  - repeat split; try done. by eexists.
  - repeat split; try done. by eexists.
Qed.

(** X11: what the dispatcher leaves alone.  Whatever is on the queue, the
    loop never touches a chat's cached dialogue data or the link counter,
    never adds or rebinds a token in the correlation store, never changes or
    removes an existing credential record, and only appends to the log. *)
Theorem dispatcher_frame (q : list ipc_obj) (w : world) :
  let w' := snd (fst (webauth_callback q w)) in
  chat_data w' = chat_data w
  ∧ links_issued w' = links_issued w
  ∧ (∀ t c, bot_data w' !! t = Some c → bot_data w !! t = Some c)
  ∧ (∀ c x, db.get_credentials (database w) c = Some x →
            db.get_credentials (database w') c = Some x)
  ∧ (∃ lines, logged w' = logged w ++ lines).
Proof.
  revert w. induction q as [|o q IH]; intros w; simpl.
  - repeat split; try done. exists []. by rewrite app_nil_r.
  - pose proof (iteration_frame o w) as Hstep.
    destruct (webauth_iteration o w) as [w1| |e w1]; simpl in *.
    + destruct Hstep as (Hcd & Hli & Hbd & Hdb & lines1 & Hlog).
      destruct (IH w1) as (Hcd' & Hli' & Hbd' & Hdb' & lines2 & Hlog').
      repeat split.
      * by rewrite Hcd'.
      * by rewrite Hli'.
      * intros t c Ht. by apply Hbd, Hbd'.
      * intros c x Hget. by apply Hdb', Hdb.
      * exists (lines1 ++ lines2). by rewrite Hlog', Hlog, app_assoc.
    + repeat split; try done. exists []. by rewrite app_nil_r.
    + exact Hstep.
Qed.

(** X12: producer and consumer fit.  Whatever [oauth2callback] puts on the
    queue, the dispatcher handles it and goes on to the next message; what
    the signal handler puts makes it return. *)
Theorem producers_never_crash_dispatcher (state : string) (error exchanged : option string)
    (o : ipc_obj) (w : world) :
  oauth2callback state error exchanged = Some o →
  (∃ w', webauth_iteration o w = Continue w')
  ∧ webauth_iteration signal_handler_put w = Break.
Proof.
  intros Hput. split; [|done].
  assert (∃ m, m ≠ Shutdown ∧ o = on_wire m) as (m & Hm & ->).
  { unfold oauth2callback in Hput. destruct error as [e|].
    - exists (Denied state). by simplify_eq.
    - destruct exchanged as [credentials|]; [|discriminate].
      exists (Granted state credentials). by simplify_eq. }
  eexists. by apply outcome_continues.
Qed.

Lemma producers_never_crash_dispatcher_witness :
  (∃ w', webauth_iteration (PyDict {[ gcal.STATE_KEY := "T0" ]}) Sample.fresh = Continue w')
  ∧ webauth_iteration signal_handler_put Sample.fresh = Break.
Proof.
  apply (producers_never_crash_dispatcher "T0" (Some "access_denied") None
           (PyDict {[ gcal.STATE_KEY := "T0" ]}) Sample.fresh).
  reflexivity.
Defined.

(** ** The conversation engine, further *)

Section EngineFurther.
Variable validate_email : string → bool.
Variable gcal_get_authz_link : nat → string * string.
Variable gcal_refresh : string → option string.
Variable gcal_get_calendars : string → result (list string).
Variable gcal_get_acl_users : string → string → result (list (string * string)).
Variable gcal_add_acl_user : string → string → string → string → result unit.
Variable gcal_delete_acl_user : string → string → string → result unit.

Local Abbreviation the_start :=
  (start gcal_get_authz_link gcal_refresh gcal_get_calendars).
Local Abbreviation the_show_share := (show_share gcal_refresh gcal_get_acl_users).
Local Abbreviation the_add_share :=
  (add_share validate_email gcal_refresh gcal_add_acl_user).
Local Abbreviation the_delete_share :=
  (delete_share validate_email gcal_refresh gcal_delete_acl_user).
Local Abbreviation the_show_calendars := (show_calendars gcal_refresh gcal_get_calendars).
Local Abbreviation the_conv_check_update :=
  (conv_check_update validate_email gcal_get_authz_link gcal_refresh gcal_get_calendars
     gcal_get_acl_users gcal_add_acl_user gcal_delete_acl_user).
Local Abbreviation the_process_update :=
  (process_update validate_email gcal_get_authz_link gcal_refresh gcal_get_calendars
     gcal_get_acl_users gcal_add_acl_user gcal_delete_acl_user).

Ltac run :=
  unfold pop_calendar_name, pop_inline_msg, pop_initial_msg;
  unfold bind, subscript, message_text, callback_query_data, split_callback,
    delete_message, edit_message_text, edit_message_reply_markup, try_except, modify,
    db_get_credentials, db_update_credentials, db_delete_credentials,
    str_to_credentials, lift, gets, ret, raise;
  simpl.

(** *** Direct commands: validation *)

(** X13: the argument count is checked first.  With a wrong number of
    arguments, show_share, add_share and delete_share only send the
    TG_INVALID_ARG_NUM text with the expected count (1, 3, 2); nothing else
    changes, whether or not the chat is authorized. *)
Theorem wrong_arg_count (chat mid : Z) (cmd : string) (a1 a3 a2 : list string)
    (w : world) :
  length a1 ≠ 1 → length a3 ≠ 3 → length a2 ≠ 2 →
  the_show_share (CommandMessage chat mid cmd a1) w
  = (Ok tt, snd (send_message chat (msgs.TG_INVALID_ARG_NUM 1) None None w))
  ∧ the_add_share (CommandMessage chat mid cmd a3) w
    = (Ok tt, snd (send_message chat (msgs.TG_INVALID_ARG_NUM 3) None None w))
  ∧ the_delete_share (CommandMessage chat mid cmd a2) w
    = (Ok tt, snd (send_message chat (msgs.TG_INVALID_ARG_NUM 2) None None w)).
Proof.
  intros H1 H3 H2. repeat split.
  - by destruct a1 as [|? [|? ?]].
  - by destruct a3 as [|? [|? [|? [|? ?]]]].
  - by destruct a2 as [|? [|? [|? ?]]].
Qed.

(** X14: bad input is turned away before anything is looked up.  add_share
    with three arguments checks the e-mail first and the role second: an
    invalid e-mail gets TG_EMAIL_INVALID whatever the role, a valid e-mail
    with a role outside GCAL_MAP gets TG_ROLE_INVALID with the list of
    roles; delete_share with an invalid e-mail gets TG_EMAIL_INVALID.  In
    each case the reply is all that happens. *)
Theorem bad_input_rejected (chat mid : Z) (cmd calendar email role email2 : string)
    (w : world) :
  validate_email email = false ∨ existsb (String.eqb role) msgs.GCAL_MAP_keys = false →
  validate_email email2 = false →
  the_add_share (CommandMessage chat mid cmd [calendar; email; role]) w
  = (Ok tt,
     snd (send_message chat
            (if validate_email email
             then msgs.TG_ROLE_INVALID "['freeBusyReader', 'reader', 'writer']"
             else msgs.TG_EMAIL_INVALID) None None w))
  ∧ the_delete_share (CommandMessage chat mid cmd [calendar; email2]) w
    = (Ok tt, snd (send_message chat msgs.TG_EMAIL_INVALID None None w)).
Proof.
  intros Hbad Hv2. split.
  - unfold add_share. cbn [context_args].
    destruct (validate_email email) eqn:Hv; [|reflexivity].
    destruct Hbad as [?|Hrole]; [discriminate|].
    cbn [negb]. rewrite Hrole. reflexivity.
  - unfold delete_share. cbn [context_args]. rewrite Hv2. reflexivity.
Qed.

(** X15: direct commands of a chat without credentials.  show_calendars,
    show_share and, past their validation, add_share and delete_share read
    the chat's record first; when there is none the DoesNotExist of the read
    leaves the handler (only HttpError is caught) and the chat gets no
    reply. *)
Theorem no_credentials_DoesNotExist (chat mid : Z) (cmd calendar email role : string)
    (args : list string) (w : world) :
  db.get_credentials (database w) chat = None →
  validate_email email = true →
  existsb (String.eqb role) msgs.GCAL_MAP_keys = true →
  the_show_calendars (CommandMessage chat mid cmd args) w = (Raise DoesNotExist, w)
  ∧ the_show_share (CommandMessage chat mid cmd [calendar]) w = (Raise DoesNotExist, w)
  ∧ the_add_share (CommandMessage chat mid cmd [calendar; email; role]) w
    = (Raise DoesNotExist, w)
  ∧ the_delete_share (CommandMessage chat mid cmd [calendar; email]) w
    = (Raise DoesNotExist, w).
Proof.
  intros Hget Hv Hrole. repeat split.
  - unfold show_calendars, __show_calendars. run. by rewrite Hget.
  - unfold show_share, report_HttpError, __show_share. run. by rewrite Hget.
  - unfold add_share. cbn [context_args]. rewrite Hv, Hrole.
    unfold report_HttpError, __add_share. run. by rewrite Hget.
  - unfold delete_share. cbn [context_args]. rewrite Hv.
    unfold report_HttpError, __delete_share. run. by rewrite Hget.
Qed.

(** *** Dispatch *)

(** X16: updates nobody handles.  A text message that is not a command is
    ignored unless the conversation waits for an e-mail, and a button press
    is ignored when no conversation is running: conversation and world stay
    as they are and nothing is raised. *)
Theorem unhandled_updates_ignored (conv : option State) (chat mid : Z) (text data : string)
    (w : world) :
  conv ≠ Some STATE_ADD_SHARE → conv ≠ Some STATE_DELETE_SHARE →
  the_process_update conv (TextMessage chat mid text) w
  = {| conversation := conv; after := w; escaped := None |}
  ∧ the_process_update None (CallbackQuery chat mid data) w
    = {| conversation := None; after := w; escaped := None |}.
Proof.
  intros Hadd Hdel. split; [|reflexivity].
  destruct conv as [[]|]; try done.
Qed.

Lemma typed_command_not_in_dialogue (conv : option State) (chat mid : Z)
    (command : string) (args : list string) :
  command ≠ "start" →
  the_conv_check_update conv (CommandMessage chat mid command args) = None.
Proof.
  intros Hne.
  assert (String.eqb "start" command = false) as Heq.
  { apply String.eqb_neq. congruence. }
  destruct conv as [[]|]; unfold conv_check_update, first_match;
    cbn -[String.eqb]; by rewrite Heq.
Qed.

(** X17: commands other than /start run beside the dialogue.  Such a
    command never changes the state of the conversation, in whatever state
    it arrives and whether or not its handler raises; a command that is none
    of help, show_calendars, show_share, add_share, delete_share and
    revoke_authz is answered with TG_UNKNOWN and nothing else. *)
Theorem commands_beside_dialogue (conv : option State) (chat mid : Z) (command : string)
    (args : list string) (w : world) :
  command ≠ "start" →
  let r := the_process_update conv (CommandMessage chat mid command args) w in
  conversation r = conv
  ∧ (existsb (String.eqb command)
       ["help"; "show_calendars"; "show_share"; "add_share"; "delete_share"; "revoke_authz"]
     = false →
     escaped r = None ∧ after r = snd (send_message chat msgs.TG_UNKNOWN None None w)).
Proof.
  intros Hne r. subst r. unfold process_update.
  rewrite (typed_command_not_in_dialogue conv chat mid command args Hne).
  split.
  - destruct (first_match _ _) as [h|]; [|done]. by destruct (h _ w) as [[]].
  - intros Hunknown. simpl in Hunknown.
    repeat (apply orb_false_iff in Hunknown as [? Hunknown]).
    unfold first_match. cbn -[String.eqb].
    rewrite !(String.eqb_sym _ command).
    repeat match goal with H : String.eqb command _ = false |- _ => rewrite H; clear H end.
    done.
Qed.

(** *** Ending the dialogue *)

Lemma finish_button_served (s : State) (chat mid : Z) :
  s ≠ STATE_FINISH → s ≠ STATE_END →
  the_conv_check_update (Some s) (CallbackQuery chat mid "finish_conversation")
  = Some finish_conversation.
Proof. by destruct s. Qed.

(** X18: the finish button cleans up.  In every state of a running
    conversation, with both message ids cached, the prompt message still
    bearing a keyboard and the initiating message still in the chat, the
    finish button ends the conversation: the three cached fields are
    cleared, the prompt message and the initiating message are deleted from
    the chat, and nothing else changes. *)
Theorem finish_conversation_cleans (s : State) (chat mid m i : Z) (shown first : Message)
    (w : world) :
  s ≠ STATE_FINISH → s ≠ STATE_END →
  inline_msg (chat_data w) = Some m → initial_msg (chat_data w) = Some i → m ≠ i →
  messages (bot w) !! (chat, m) = Some shown → reply_markup shown ≠ None →
  messages (bot w) !! (chat, i) = Some first →
  let r := the_process_update (Some s) (CallbackQuery chat mid "finish_conversation") w in
  conversation r = None
  ∧ escaped r = None
  ∧ chat_data (after r) = chat_data_empty
  ∧ messages (bot (after r)) = delete (chat, i) (delete (chat, m) (messages (bot w)))
  ∧ database (after r) = database w
  ∧ bot_data (after r) = bot_data w.
Proof.
  intros Hs1 Hs2 Hm Hi Hne Hshown Hmarkup Hfirst r. subst r.
  unfold process_update. rewrite finish_button_served by done.
  unfold finish_conversation. run. rewrite Hm. simpl. rewrite Hi. simpl.
  rewrite Hshown. rewrite decide_False by done. simpl.
  rewrite lookup_insert_eq. simpl.
  assert ((chat, m) ≠ (chat, i)) as Hkeys by congruence.
  rewrite lookup_delete_ne, lookup_insert_ne, Hfirst by done. simpl.
  rewrite delete_insert_eq. done.
Qed.

(** X19: the finish button on a vanished prompt.  [finish_conversation]
    clears the cache before it touches the chat.  When the prompt message is
    no longer in the chat, the edit raises BadRequest with the cache already
    cleared and the conversation still in its state; a second press then
    fails on the missing INLINE_MSG_KEY and changes nothing. *)
Theorem finish_conversation_vanished_prompt (s : State) (chat mid m i : Z) (w : world) :
  s ≠ STATE_FINISH → s ≠ STATE_END →
  inline_msg (chat_data w) = Some m → initial_msg (chat_data w) = Some i →
  messages (bot w) !! (chat, m) = None →
  let r := the_process_update (Some s) (CallbackQuery chat mid "finish_conversation") w in
  let r' := the_process_update (conversation r)
              (CallbackQuery chat mid "finish_conversation") (after r) in
  escaped r = Some (BadRequest "Message to edit not found")
  ∧ conversation r = Some s
  ∧ chat_data (after r) = chat_data_empty
  ∧ bot (after r) = bot w
  ∧ escaped r' = Some (KeyError INLINE_MSG_KEY)
  ∧ after r' = after r
  ∧ conversation r' = Some s.
Proof.
  intros Hs1 Hs2 Hm Hi Hgone r.
  assert (r = {| conversation := Some s;
                 after := set_chat_data (fun _ => chat_data_empty) w;
                 escaped := Some (BadRequest "Message to edit not found") |}) as ->.
  { subst r. unfold process_update. rewrite finish_button_served by done.
    unfold finish_conversation. run. rewrite Hm. simpl. rewrite Hi. simpl.
    rewrite Hgone. done. }
  simpl. unfold process_update. rewrite finish_button_served by done.
  unfold finish_conversation. run. done.
Qed.

(** *** Keyboards and callback payloads *)

(** X20: every button reaches its handler.  In the state in which a
    keyboard is on display, each of its buttons is served, and by the
    handler it is meant for: the action menu in STATE_ACTION_SELECTION, the
    three-button keyboard in STATE_ACTION_SELECTION, STATE_ADD_SHARE and
    STATE_DELETE_SHARE, the role picker in STATE_ADD_SHARE_ROLE. *)
Theorem every_button_served (chat mid : Z) (calendar username : string) :
  map (fun b => the_conv_check_update (Some STATE_ACTION_SELECTION)
                  (CallbackQuery chat mid (callback_data b)))
      (buttons (calendar_keyboard calendar))
  = [ Some (show_share_inline gcal_refresh gcal_get_acl_users);
      Some add_share_inline; Some delete_share_inline;
      Some the_start; Some finish_conversation ]
  ∧ (∀ s, s = STATE_ACTION_SELECTION ∨ s = STATE_ADD_SHARE ∨ s = STATE_DELETE_SHARE →
          map (fun b => the_conv_check_update (Some s)
                          (CallbackQuery chat mid (callback_data b)))
              (buttons (default_keyboard calendar))
          = [ Some select_calendar_inline; Some the_start; Some finish_conversation ])
  ∧ map (fun b => the_conv_check_update (Some STATE_ADD_SHARE_ROLE)
                    (CallbackQuery chat mid (callback_data b)))
        (buttons (add_share_keyboard calendar username))
    = [ Some (add_share_inline_freebusy gcal_refresh gcal_add_acl_user);
        Some (add_share_inline_reader gcal_refresh gcal_add_acl_user);
        Some (add_share_inline_writer gcal_refresh gcal_add_acl_user);
        Some select_calendar_inline; Some the_start; Some finish_conversation ].
Proof.
  split; [reflexivity|]. split; [|reflexivity].
  intros s [->|[->| ->]]; reflexivity.
Qed.

(** X21: and so does every button of the initial menu.  In
    STATE_CALENDAR_SELECTION each calendar button of the menu built by
    [start] is served by [select_calendar_inline], whatever the calendars
    are called, and the last row by [revoke_authz_inline] and
    [finish_conversation]. *)
Theorem initial_menu_served (chat mid : Z) (calendars : list string) :
  map (fun b => the_conv_check_update (Some STATE_CALENDAR_SELECTION)
                  (CallbackQuery chat mid (callback_data b)))
      (buttons
         (map (fun calendar =>
                 [ button calendar ("select_calendar_inline" +:+ DELIM +:+ calendar) ])
              calendars
          ++ [ [ button msgs.BUTTON_REVOKE_AUTHZ "revoke_authz_inline";
                 button msgs.BUTTON_FINISH "finish_conversation" ] ]))
  = map (fun _ => Some select_calendar_inline) calendars
    ++ [ Some revoke_authz_inline; Some finish_conversation ].
Proof.
  unfold buttons. induction calendars as [|calendar calendars IH]; [reflexivity|].
  simpl. f_equal. exact IH.
Qed.

Lemma split_length (sep : Ascii.ascii) (s : string) :
  length (split sep s) = S (occurrences sep s).
Proof.
  induction s as [|c s IH]; simpl; [done|].
  destruct (Ascii.eqb c sep); simpl; [by rewrite IH|].
  destruct (split sep s); simpl in *; [discriminate|done].
Qed.

Lemma split_without_sep (sep : Ascii.ascii) (s : string) :
  occurrences sep s = O → split sep s = [s].
Proof.
  induction s as [|c s IH]; simpl; [done|].
  destruct (Ascii.eqb c sep); simpl; [discriminate|].
  intros Hocc. by rewrite (IH Hocc).
Qed.

Lemma split_at_sep (sep : Ascii.ascii) (a b : string) :
  occurrences sep a = O → split sep (a +:+ String sep b) = a :: split sep b.
Proof.
  induction a as [|c a IH]; simpl.
  - intros _. by rewrite Ascii.eqb_refl.
  - destruct (Ascii.eqb c sep); simpl; [discriminate|].
    intros Hocc. by rewrite (IH Hocc).
Qed.

(** X22: payload round trip.  A payload built as name, delimiter, argument
    is taken apart into the same name and argument, provided neither holds
    the delimiter. *)
Theorem callback_payload_roundtrip (name x : string) (w : world) :
  occurrences CALLBACK_DELIMITER name = O →
  occurrences CALLBACK_DELIMITER x = O →
  split_callback (name +:+ DELIM +:+ x) w = (Ok (name, x), w).
Proof.
  intros Hname Hx. unfold split_callback, DELIM.
  change (String CALLBACK_DELIMITER "" +:+ x) with (String CALLBACK_DELIMITER x).
  by rewrite (split_at_sep _ _ _ Hname), (split_without_sep _ _ Hx).
Qed.

(** X23: a calendar whose name holds the delimiter cannot be picked.  Its
    button in the initial menu is served by [select_calendar_inline], whose
    unpacking of the split raises ValueError; nothing is edited and the
    conversation stays in STATE_CALENDAR_SELECTION. *)
Theorem delimiter_in_calendar_name (chat mid : Z) (calendar : string) (w : world) :
  occurrences CALLBACK_DELIMITER calendar ≠ O →
  let r := the_process_update (Some STATE_CALENDAR_SELECTION)
             (CallbackQuery chat mid ("select_calendar_inline" +:+ DELIM +:+ calendar)) w in
  escaped r = Some ValueError
  ∧ after r = w
  ∧ conversation r = Some STATE_CALENDAR_SELECTION.
Proof.
  intros Hocc r. subst r. unfold process_update. simpl.
  unfold select_calendar_inline. run.
  change ("" +:+ calendar) with calendar.
  pose proof (split_length CALLBACK_DELIMITER calendar) as Hlen.
  destruct (split CALLBACK_DELIMITER calendar) as [|a [|b rest]]; simpl in Hlen;
    [discriminate| |done].
  exfalso. apply Hocc. lia.
Qed.

(** *** Entering the dialogue *)

Lemma typed_start_served (conv : option State) (chat mid : Z) (args : list string) :
  the_conv_check_update conv (CommandMessage chat mid "start" args) = Some the_start.
Proof. by destruct conv as [[]|]. Qed.

(** X24: the first /start of an authorized chat.  With no keyboard active, a
    typed /start sends the initial menu, one row per calendar and a last row
    with the revoke and finish buttons, caches the id of the /start message
    and the id of the menu message, and puts the conversation in
    STATE_CALENDAR_SELECTION, whatever it was before. *)
Theorem start_opens_menu (conv : option State) (chat mid : Z) (args calendars : list string)
    (creds : string) (w : world) :
  db.get_credentials (database w) chat = Some creds →
  gcal_get_calendars (default creds (gcal_refresh creds)) = Ok calendars →
  inline_msg (chat_data w) = None →
  let r := the_process_update conv (CommandMessage chat mid "start" args) w in
  let keyboard :=
    map (fun calendar =>
           [ button calendar ("select_calendar_inline" +:+ DELIM +:+ calendar) ])
        calendars
    ++ [ [ button msgs.BUTTON_REVOKE_AUTHZ "revoke_authz_inline";
           button msgs.BUTTON_FINISH "finish_conversation" ] ] in
  conversation r = Some STATE_CALENDAR_SELECTION
  ∧ escaped r = None
  ∧ chat_data (after r)
    = {| initial_msg := Some mid; inline_msg := Some (next_message_id (bot w));
         calendar_name := calendar_name (chat_data w) |}
  ∧ messages (bot (after r))
    = <[(chat, next_message_id (bot w)) :=
         {| msg_text := msgs.PROMPT_INITIAL_MENU; reply_markup := Some keyboard;
            reply_to_message_id := None |}]> (messages (bot w))
  ∧ length keyboard = S (length calendars)
  ∧ bot_data (after r) = bot_data w.
Proof.
  intros Hget Hcal Hnone r keyboard. subst r keyboard.
  destruct (str_to_credentials_ok gcal_refresh chat creds w Hget) as (t & Hstr & _).
  unfold process_update. rewrite typed_start_served.
  unfold start, bind, gets, db_get_credentials, lift. simpl.
  rewrite (exists_after_get _ _ _ Hget). simpl. rewrite Hget, Hstr, Hcal. simpl.
  rewrite Hnone. simpl. repeat split.
  rewrite length_app, length_map. simpl. lia.
Qed.

(** X25: the listing of the calendars is not guarded in [start].  When
    [gcal.get_calendars] raises for an authorized chat, the exception leaves
    [start], whatever kind of update called it: no message has been sent or
    edited, and the correlation store and the cached dialogue data are as
    before; without a refresh of the credentials the world is unchanged. *)
Theorem start_propagates_provider_error (update : Update) (creds : string) (e : exn)
    (w : world) :
  db.get_credentials (database w) (effective_chat_id update) = Some creds →
  gcal_get_calendars (default creds (gcal_refresh creds)) = Raise e →
  ∃ w', the_start update w = (Raise e, w')
    ∧ bot w' = bot w ∧ bot_data w' = bot_data w ∧ chat_data w' = chat_data w
    ∧ (gcal_refresh creds = None → w' = w).
Proof.
  intros Hget Hcal.
  destruct (str_to_credentials_ok gcal_refresh _ creds w Hget) as (t & Hstr & Ht).
  exists (set_database (fun _ => t) w). split.
  - unfold start, bind, gets, db_get_credentials, lift. simpl.
    rewrite (exists_after_get _ _ _ Hget). simpl. by rewrite Hget, Hstr, Hcal.
  - repeat split. intros Hfresh. rewrite (Ht Hfresh). by destruct w.
Qed.

(** *** Granting and revoking in the dialogue *)

(** X26: a role button grants.  In STATE_ADD_SHARE_ROLE, with the prompt id
    and the calendar cached and the provider accepting the rule, each role
    button adds the e-mail of its payload with its own role (freeBusyReader,
    reader, writer), drops the cached calendar name, writes TG_USER_ADDED
    above the three-button keyboard into the cached prompt message and
    returns to STATE_ACTION_SELECTION. *)
Theorem role_button_grants (chat mid m : Z) (name access email cal creds : string)
    (shown : Message) (w : world) :
  (name, access) = ("add_share_inline_freebusy", gcal.FREE_BUSY_READER)
  ∨ (name, access) = ("add_share_inline_reader", gcal.READER)
  ∨ (name, access) = ("add_share_inline_writer", gcal.WRITER) →
  occurrences CALLBACK_DELIMITER email = O →
  inline_msg (chat_data w) = Some m → calendar_name (chat_data w) = Some cal →
  db.get_credentials (database w) chat = Some creds → gcal_refresh creds = None →
  gcal_add_acl_user creds cal email access = Ok tt →
  messages (bot w) !! (chat, m) = Some shown →
  msg_text shown ≠ msgs.TG_USER_ADDED email access cal →
  let r := the_process_update (Some STATE_ADD_SHARE_ROLE)
             (CallbackQuery chat mid (name +:+ DELIM +:+ email)) w in
  conversation r = Some STATE_ACTION_SELECTION
  ∧ escaped r = None
  ∧ chat_data (after r) = set_calendar_name None (chat_data w)
  ∧ messages (bot (after r))
    = <[(chat, m) := {| msg_text := msgs.TG_USER_ADDED email access cal;
                        reply_markup := Some (default_keyboard cal);
                        reply_to_message_id := reply_to_message_id shown |}]>
        (messages (bot w))
  ∧ database (after r) = database w.
Proof.
  intros Hbutton Hemail Hm Hcal Hget Hfresh Hadd Hshown Htext r. subst r.
  pose proof (split_without_sep _ _ Hemail) as Hsplit.
  destruct Hbutton as [Hb|[Hb|Hb]]; simplify_eq; unfold process_update; simpl;
    unfold add_share_inline_freebusy, add_share_inline_reader, add_share_inline_writer,
      add_share_inline_role, __add_share; run;
    rewrite Hm; simpl; rewrite Hcal; simpl;
    change ("" +:+ email) with email; rewrite Hsplit; simpl;
    rewrite Hget, Hfresh; simpl; rewrite Hadd; simpl; rewrite Hshown;
    (rewrite decide_False by (intros [? _]; done)); done.
Qed.

(** X27: the revoke button.  In STATE_CALENDAR_SELECTION, on a session in
    order, the revoke button deletes the chat's credentials, sends
    TG_REVOKE_AUTHZ and then cleans up as the finish button does: the
    conversation ends, the cache is cleared and the prompt and initiating
    messages are deleted. *)
Theorem revoke_button_ends_dialogue (chat mid m i : Z) (shown first : Message) (w : world) :
  inline_msg (chat_data w) = Some m → initial_msg (chat_data w) = Some i → m ≠ i →
  next_message_id (bot w) ≠ m → next_message_id (bot w) ≠ i →
  messages (bot w) !! (chat, m) = Some shown → reply_markup shown ≠ None →
  messages (bot w) !! (chat, i) = Some first →
  let r := the_process_update (Some STATE_CALENDAR_SELECTION)
             (CallbackQuery chat mid "revoke_authz_inline") w in
  conversation r = None
  ∧ escaped r = None
  ∧ db.credentials_exists (database (after r)) chat = false
  ∧ database (after r) = db.delete_credentials (database w) chat
  ∧ chat_data (after r) = chat_data_empty
  ∧ messages (bot (after r))
    = delete (chat, i) (delete (chat, m)
        (<[(chat, next_message_id (bot w)) :=
            {| msg_text := msgs.TG_REVOKE_AUTHZ; reply_markup := None;
               reply_to_message_id := None |}]> (messages (bot w)))).
Proof.
  intros Hm Hi Hne Hnm Hni Hshown Hmarkup Hfirst r. subst r.
  unfold process_update. simpl.
  unfold revoke_authz_inline, __revoke_authz, finish_conversation, send_message. run.
  rewrite Hm. simpl. rewrite Hi. simpl.
  assert ((chat, next_message_id (bot w)) ≠ (chat, m)) as Hk1 by congruence.
  assert ((chat, next_message_id (bot w)) ≠ (chat, i)) as Hk2 by congruence.
  assert ((chat, m) ≠ (chat, i)) as Hk3 by congruence.
  rewrite lookup_insert_ne, Hshown by done.
  rewrite decide_False by done. simpl.
  rewrite lookup_insert_eq. simpl.
  rewrite lookup_delete_ne, lookup_insert_ne, lookup_insert_ne, Hfirst by done. simpl.
  rewrite delete_insert_eq. repeat split. apply deleted_not_exists.
Qed.

(** *** Listing the shares *)

Lemma share_lines_raise (l : list (string * string)) (acc : M string) (w w' : world)
    (e : exn) :
  acc w = (Raise e, w') →
  fold_left
    (fun acc rec =>
       let* users := acc in
       match msgs.GCAL_MAP_get (snd rec) with
       | None => raise (KeyError (snd rec))
       | Some access => ret (users +:+ msgs.GCAL_ENTRY (fst rec) access +:+ linesep)
       end) l acc w = (Raise e, w').
Proof.
  revert acc. induction l as [|rec l IH]; intros acc Hacc; simpl; [done|].
  apply IH. unfold bind. by rewrite Hacc.
Qed.

Lemma share_lines_known (l : list (string * string)) (acc : M string) (w : world)
    (s : string) :
  acc w = (Ok s, w) →
  Forall (fun rec => is_Some (msgs.GCAL_MAP_get (snd rec))) l →
  ∃ s', fold_left
          (fun acc rec =>
             let* users := acc in
             match msgs.GCAL_MAP_get (snd rec) with
             | None => raise (KeyError (snd rec))
             | Some access => ret (users +:+ msgs.GCAL_ENTRY (fst rec) access +:+ linesep)
             end) l acc w = (Ok s', w).
Proof.
  intros Hacc Hl. revert acc s Hacc.
  induction Hl as [|rec l [access Hrec] Hl IH]; intros acc s Hacc; simpl; [by eexists|].
  eapply IH. unfold bind. rewrite Hacc, Hrec. reflexivity.
Qed.

(** X28: a role the bot has no word for.  When the provider lists an entry
    whose role is not a key of GCAL_MAP, show_share fails with the KeyError
    of the first such role: only HttpError is caught, so the chat gets no
    reply, not even the entries before it. *)
Theorem unknown_role_KeyError (chat mid : Z) (cmd calendar creds name role : string)
    (pre post : list (string * string)) (w : world) :
  db.get_credentials (database w) chat = Some creds → gcal_refresh creds = None →
  gcal_get_acl_users creds calendar = Ok (pre ++ (name, role) :: post) →
  Forall (fun rec => is_Some (msgs.GCAL_MAP_get (snd rec))) pre →
  msgs.GCAL_MAP_get role = None →
  the_show_share (CommandMessage chat mid cmd [calendar]) w = (Raise (KeyError role), w).
Proof.
  intros Hget Hfresh Hlist Hpre Hrole.
  unfold show_share, report_HttpError, __show_share. run.
  rewrite Hget, Hfresh. simpl. rewrite Hlist.
  rewrite fold_left_app. simpl.
  destruct (share_lines_known pre (fun w0 => (Ok "", w0)) w "" eq_refl Hpre) as [s' Hs'].
  match goal with
  | |- context [fold_left ?f post ?a w] =>
      replace (fold_left f post a w) with (@Raise string (KeyError role), w); [done|]
  end.
  symmetry. apply share_lines_raise.
  match goal with
  | |- context [fold_left ?f pre ?a w] =>
      replace (fold_left f pre a w) with (Ok s', w) by (symmetry; exact Hs')
  end.
  by rewrite Hrole.
Qed.

(** *** What every update keeps *)

Lemma share_lines_world (l : list (string * string)) (acc : M string) (w : world) :
  (∀ w0, snd (acc w0) = w0) →
  snd (fold_left
         (fun acc rec =>
            let* users := acc in
            match msgs.GCAL_MAP_get (snd rec) with
            | None => raise (KeyError (snd rec))
            | Some access => ret (users +:+ msgs.GCAL_ENTRY (fst rec) access +:+ linesep)
            end) l acc w) = w.
Proof.
  revert acc. induction l as [|rec l IH]; intros acc Hacc; simpl; [apply Hacc|].
  apply IH. intros w0. unfold bind. specialize (Hacc w0).
  destruct (acc w0) as [[users|e] w1]; simpl in *; subst; [|done].
  by destruct (msgs.GCAL_MAP_get rec.2).
Qed.

Ltac kept_unique :=
  first [ done | by apply unique_delete | by eapply unique_update ].

Ltac kept_paired :=
  match goal with
  | Hp : ids_paired _ |- _ =>
      unfold ids_paired in *; simpl in *;
      repeat match goal with H : _ = None |- _ => rewrite H in * end;
      repeat match goal with H : _ = Some _ |- _ => rewrite H in * end;
      first [ done | tauto
            | destruct Hp as [Hp1 Hp2]; split; intros [? ?]; try done;
              first [ by destruct Hp1 as [? ?]; eauto | by destruct Hp2 as [? ?]; eauto ] ]
  end.

Ltac kept :=
  intros [Hu Hp]; run; run;
  repeat (case_match; simplify_eq/=);
  (split; simpl; [kept_unique | kept_paired]).

Lemma start_keeps (u : Update) (w : world) :
  well_kept w → well_kept (snd (the_start u w)).
Proof. unfold start, get_authz_link, send_message. kept. Qed.

Lemma select_calendar_inline_keeps (u : Update) (w : world) :
  well_kept w → well_kept (snd (select_calendar_inline u w)).
Proof. unfold select_calendar_inline. kept. Qed.

Lemma add_share_inline_keeps (u : Update) (w : world) :
  well_kept w → well_kept (snd (add_share_inline u w)).
Proof. unfold add_share_inline. kept. Qed.

Lemma delete_share_inline_keeps (u : Update) (w : world) :
  well_kept w → well_kept (snd (delete_share_inline u w)).
Proof. unfold delete_share_inline. kept. Qed.

Lemma add_share_inline_email_keeps (u : Update) (w : world) :
  well_kept w → well_kept (snd (add_share_inline_email validate_email u w)).
Proof. unfold add_share_inline_email. kept. Qed.

Lemma delete_share_inline_email_keeps (u : Update) (w : world) :
  well_kept w →
  well_kept (snd (delete_share_inline_email validate_email gcal_refresh
                    gcal_delete_acl_user u w)).
Proof. unfold delete_share_inline_email, __delete_share. kept. Qed.

Lemma add_share_inline_role_keeps (u : Update) (access : string) (w : world) :
  well_kept w →
  well_kept (snd (add_share_inline_role gcal_refresh gcal_add_acl_user u access w)).
Proof. unfold add_share_inline_role, __add_share. kept. Qed.

Lemma finish_conversation_keeps (u : Update) (w : world) :
  well_kept w → well_kept (snd (finish_conversation u w)).
Proof. unfold finish_conversation. kept. Qed.

Lemma revoke_authz_inline_keeps (u : Update) (w : world) :
  well_kept w → well_kept (snd (revoke_authz_inline u w)).
Proof. unfold revoke_authz_inline, __revoke_authz, finish_conversation, send_message. kept. Qed.

Lemma show_share_world (chat : Z) (calendar : string) (w : world) :
  well_kept w →
  well_kept (snd (__show_share gcal_refresh gcal_get_acl_users chat calendar w)).
Proof.
  intros [Hu Hp]. unfold __show_share.
  unfold bind at 1 2 3. unfold db_get_credentials, lift.
  destruct (db.get_credentials (database w) chat) as [creds|]; [|done].
  unfold str_to_credentials.
  destruct (gcal_refresh creds) as [refreshed|].
  - unfold bind at 1. unfold db_update_credentials.
    destruct (db.update_credentials (database w) chat refreshed) as [t|] eqn:Hup; [|done].
    simpl. destruct (gcal_get_acl_users refreshed calendar) as [users|e]; [|split; simpl].
    + rewrite share_lines_world by done. split; simpl; [|done]. by eapply unique_update.
    + by eapply unique_update.
    + done.
  - simpl. destruct (gcal_get_acl_users creds calendar) as [users|e]; [|done].
    by rewrite share_lines_world.
Qed.

Lemma show_share_inline_keeps (u : Update) (w : world) :
  well_kept w →
  well_kept (snd (show_share_inline gcal_refresh gcal_get_acl_users u w)).
Proof.
  intros Hk. unfold show_share_inline. run.
  destruct u as [chat mid command args|chat mid text|chat mid data]; simpl; [done|done|].
  destruct (split CALLBACK_DELIMITER data) as [|cmd [|calendar [|? ?]]]; simpl; try done.
  pose proof (show_share_world chat calendar w Hk) as Hk1.
  destruct (__show_share gcal_refresh gcal_get_acl_users chat calendar w) as [[text|e] w1];
    simpl in *; [|done].
  destruct Hk1 as [Hu Hp].
  repeat (case_match; simplify_eq/=); by split.
Qed.

Lemma add_share_inline_freebusy_keeps (u : Update) (w : world) :
  well_kept w →
  well_kept (snd (add_share_inline_freebusy gcal_refresh gcal_add_acl_user u w)).
Proof. apply add_share_inline_role_keeps. Qed.

Lemma add_share_inline_reader_keeps (u : Update) (w : world) :
  well_kept w →
  well_kept (snd (add_share_inline_reader gcal_refresh gcal_add_acl_user u w)).
Proof. apply add_share_inline_role_keeps. Qed.

Lemma add_share_inline_writer_keeps (u : Update) (w : world) :
  well_kept w →
  well_kept (snd (add_share_inline_writer gcal_refresh gcal_add_acl_user u w)).
Proof. apply add_share_inline_role_keeps. Qed.

Lemma help_keeps (u : Update) (w : world) : well_kept w → well_kept (snd (help u w)).
Proof. unfold help, send_message. kept. Qed.

Lemma unknown_cmd_keeps (u : Update) (w : world) :
  well_kept w → well_kept (snd (unknown_cmd u w)).
Proof. unfold unknown_cmd, send_message. kept. Qed.

Lemma show_calendars_keeps (u : Update) (w : world) :
  well_kept w → well_kept (snd (the_show_calendars u w)).
Proof. unfold show_calendars, __show_calendars, send_message. kept. Qed.

Lemma show_share_keeps (u : Update) (w : world) :
  well_kept w → well_kept (snd (the_show_share u w)).
Proof.
  intros Hk. unfold show_share, report_HttpError, send_message. run.
  destruct (context_args u) as [|calendar [|? ?]]; simpl; try done.
  pose proof (show_share_world (effective_chat_id u) calendar w Hk) as Hk1.
  destruct (__show_share gcal_refresh gcal_get_acl_users (effective_chat_id u) calendar w)
    as [[text|e] w1]; simpl in *; [done|].
  by destruct e.
Qed.

Lemma add_share_keeps (u : Update) (w : world) :
  well_kept w → well_kept (snd (the_add_share u w)).
Proof.
  unfold add_share, report_HttpError, __add_share, send_message.
  intros [Hu Hp]. destruct (context_args u) as [|? [|? [|? [|? ?]]]]; try done.
  destruct (validate_email _); [|done]. cbn [negb].
  destruct (existsb _ _); [|done]. cbn [negb].
  run; run; repeat (case_match; simplify_eq/=);
    (split; simpl; [kept_unique | kept_paired]).
Qed.

Lemma delete_share_keeps (u : Update) (w : world) :
  well_kept w → well_kept (snd (the_delete_share u w)).
Proof. unfold delete_share, report_HttpError, __delete_share, send_message. kept. Qed.

Lemma revoke_authz_keeps (u : Update) (w : world) :
  well_kept w → well_kept (snd (revoke_authz u w)).
Proof. unfold revoke_authz, __revoke_authz, send_message. kept. Qed.

Lemma first_match_elem {R} (hs : Handlers R) (u : Update) (h : Update → M R) :
  first_match hs u = Some h → h ∈ map snd hs.
Proof.
  unfold first_match. induction hs as [|[m h0] hs IH]; simpl; [discriminate|].
  destruct (check_update m u); simpl.
  - intros [= ->]. apply list_elem_of_here.
  - intros Hh. apply list_elem_of_further. by apply IH.
Qed.

Lemma states_keep (s : State) :
  Forall (fun h : Update → M State => ∀ u w, well_kept w → well_kept (snd (h u w)))
    (map snd (states validate_email gcal_get_authz_link gcal_refresh gcal_get_calendars
                gcal_get_acl_users gcal_add_acl_user gcal_delete_acl_user s)).
Proof.
  destruct s;
    unfold states, calendar_selection_handlers, action_selection_handlers,
      add_share_handlers, add_share_role_handlers, delete_share_handlers;
    cbn [map snd];
    repeat (apply List.Forall_cons; [|]); try apply List.Forall_nil;
    first [ apply start_keeps | apply select_calendar_inline_keeps
          | apply revoke_authz_inline_keeps | apply finish_conversation_keeps
          | apply show_share_inline_keeps | apply add_share_inline_keeps
          | apply delete_share_inline_keeps | apply add_share_inline_email_keeps
          | apply add_share_inline_freebusy_keeps | apply add_share_inline_reader_keeps
          | apply add_share_inline_writer_keeps | apply delete_share_inline_email_keeps ].
Qed.

Lemma conv_handler_keeps (conv : option State) (u : Update) (h : Update → M State) :
  the_conv_check_update conv u = Some h →
  ∀ u' w, well_kept w → well_kept (snd (h u' w)).
Proof.
  assert (∀ h0 : Update → M State,
            h0 ∈ map snd (entry_points gcal_get_authz_link gcal_refresh gcal_get_calendars) →
            ∀ u' w, well_kept w → well_kept (snd (h0 u' w))) as Hentry.
  { intros h0 Hin%list_elem_of_singleton. subst. apply start_keeps. }
  unfold conv_check_update. destruct conv as [s|].
  - destruct (first_match (states _ _ _ _ _ _ _ s) u) as [h1|] eqn:Hstate.
    + intros [= ->]. apply first_match_elem in Hstate.
      pose proof (states_keep s) as Hall. rewrite Forall_forall in Hall. by apply Hall.
    + intros Hh%first_match_elem. by apply Hentry.
  - intros Hh%first_match_elem. by apply Hentry.
Qed.

Lemma direct_handler_keeps (u : Update) (h : Update → M unit) :
  first_match
    (registered_methods validate_email gcal_refresh gcal_get_calendars gcal_get_acl_users
       gcal_add_acl_user gcal_delete_acl_user ++ unknown_handler) u = Some h →
  ∀ u' w, well_kept w → well_kept (snd (h u' w)).
Proof.
  intros Hh%first_match_elem. revert h Hh.
  apply (proj1 (Forall_forall
                  (fun h : Update → M unit => ∀ u' w, well_kept w → well_kept (snd (h u' w)))
                  _)).
  unfold registered_methods, unknown_handler. cbn [map snd app].
  repeat (apply List.Forall_cons; [|]); try apply List.Forall_nil;
    first [ apply help_keeps | apply show_calendars_keeps | apply show_share_keeps
          | apply add_share_keeps | apply delete_share_keeps | apply revoke_authz_keeps
          | apply unknown_cmd_keeps ].
Qed.

Lemma dispatcher_keeps (q : list ipc_obj) (w : world) :
  well_kept w → well_kept (snd (fst (webauth_callback q w))).
Proof.
  revert w. induction q as [|o q IH]; intros w Hk; simpl; [done|].
  assert (well_kept (world_after (webauth_iteration o w) w)) as Hstep.
  { destruct Hk as [Hu Hp]. destruct o as [b|d| | |]; simpl; try done.
    destruct (d !! gcal.STATE_KEY) as [state|]; simpl; [|done].
    destruct (bot_data w !! state) as [chat|]; simpl; [|done].
    destruct (d !! gcal.CREDENTIALS_KEY) as [credentials|]; simpl; [|done].
    split; simpl; [by apply unique_create|done]. }
  destruct (webauth_iteration o w) as [w1| |e w1]; simpl in *; [by apply IH|done|done].
Qed.

(** X29: what every step keeps.  Starting from a table with one row per chat
    at most and a cache whose two message ids are present or absent
    together, this is still so after any update is processed in any state of
    the conversation, whether its handler returns or raises, and after the
    dispatcher has run over any queue. *)
Theorem every_step_keeps (conv : option State) (u : Update) (q : list ipc_obj) (w : world) :
  well_kept w →
  well_kept (after (the_process_update conv u w))
  ∧ well_kept (snd (fst (webauth_callback q w))).
Proof.
  intros Hk. split; [|by apply dispatcher_keeps].
  unfold process_update.
  destruct (the_conv_check_update conv u) as [h|] eqn:Hh.
  - pose proof (conv_handler_keeps conv u h Hh u w Hk) as Hk'.
    by destruct (h u w) as [[s|e] w'].
  - destruct (first_match _ u) as [h|] eqn:Hd; [|done].
    pose proof (direct_handler_keeps u h Hd u w Hk) as Hk'.
    by destruct (h u w) as [[s|e] w'].
Qed.

End EngineFurther.

Lemma wrong_arg_count_witness :
  show_share Sample.refresh Sample.get_acl_users
    (CommandMessage 7 20 "show_share" []) Sample.fresh
  = (Ok tt, snd (send_message 7 (msgs.TG_INVALID_ARG_NUM 1) None None Sample.fresh))
  ∧ add_share Sample.validate_email Sample.refresh Sample.add_acl_user
      (CommandMessage 7 20 "show_share" ["mycal"; "bob@example.com"]) Sample.fresh
    = (Ok tt, snd (send_message 7 (msgs.TG_INVALID_ARG_NUM 3) None None Sample.fresh))
  ∧ delete_share Sample.validate_email Sample.refresh Sample.delete_acl_user
      (CommandMessage 7 20 "show_share" ["mycal"; "bob@example.com"; "extra"]) Sample.fresh
    = (Ok tt, snd (send_message 7 (msgs.TG_INVALID_ARG_NUM 2) None None Sample.fresh)).
Proof.
  apply (wrong_arg_count Sample.validate_email Sample.refresh Sample.get_acl_users
           Sample.add_acl_user Sample.delete_acl_user 7 20 "show_share" []
           ["mycal"; "bob@example.com"] ["mycal"; "bob@example.com"; "extra"] Sample.fresh);
    simpl; lia.
Defined.

Lemma bad_input_rejected_witness :
  add_share Sample.validate_email Sample.refresh Sample.add_acl_user
    (CommandMessage 7 20 "add_share" ["mycal"; "not-an-email"; "reader"]) Sample.fresh
  = (Ok tt,
     snd (send_message 7
            (if Sample.validate_email "not-an-email"
             then msgs.TG_ROLE_INVALID "['freeBusyReader', 'reader', 'writer']"
             else msgs.TG_EMAIL_INVALID) None None Sample.fresh))
  ∧ delete_share Sample.validate_email Sample.refresh Sample.delete_acl_user
      (CommandMessage 7 20 "add_share" ["mycal"; "nobody"]) Sample.fresh
    = (Ok tt, snd (send_message 7 msgs.TG_EMAIL_INVALID None None Sample.fresh)).
Proof.
  apply (bad_input_rejected Sample.validate_email Sample.refresh Sample.add_acl_user
           Sample.delete_acl_user 7 20 "add_share" "mycal" "not-an-email" "reader" "nobody"
           Sample.fresh).
  - left. reflexivity.
  - reflexivity.
Defined.

Lemma no_credentials_DoesNotExist_witness :
  show_calendars Sample.refresh Sample.get_calendars
    (CommandMessage 7 20 "show_calendars" []) Sample.fresh = (Raise DoesNotExist, Sample.fresh)
  ∧ show_share Sample.refresh Sample.get_acl_users
      (CommandMessage 7 20 "show_calendars" ["mycal"]) Sample.fresh
    = (Raise DoesNotExist, Sample.fresh)
  ∧ add_share Sample.validate_email Sample.refresh Sample.add_acl_user
      (CommandMessage 7 20 "show_calendars" ["mycal"; "bob@example.com"; "reader"])
      Sample.fresh
    = (Raise DoesNotExist, Sample.fresh)
  ∧ delete_share Sample.validate_email Sample.refresh Sample.delete_acl_user
      (CommandMessage 7 20 "show_calendars" ["mycal"; "bob@example.com"]) Sample.fresh
    = (Raise DoesNotExist, Sample.fresh).
Proof.
  apply (no_credentials_DoesNotExist Sample.validate_email Sample.refresh
           Sample.get_calendars Sample.get_acl_users Sample.add_acl_user
           Sample.delete_acl_user 7 20 "show_calendars" "mycal" "bob@example.com" "reader"
           [] Sample.fresh); reflexivity.
Defined.

Lemma unhandled_updates_ignored_witness :
  Sample.process_update (Some STATE_CALENDAR_SELECTION) (TextMessage 7 12 "hello")
    (after Sample.in_menu)
  = {| conversation := Some STATE_CALENDAR_SELECTION; after := after Sample.in_menu;
       escaped := None |}
  ∧ Sample.process_update None (CallbackQuery 7 11 "finish_conversation")
      (after Sample.in_menu)
    = {| conversation := None; after := after Sample.in_menu; escaped := None |}.
Proof.
  apply (unhandled_updates_ignored Sample.validate_email Sample.get_authz_link
           Sample.refresh Sample.get_calendars Sample.get_acl_users Sample.add_acl_user
           Sample.delete_acl_user (Some STATE_CALENDAR_SELECTION) 7 12 "hello"
           "finish_conversation" (after Sample.in_menu)); discriminate.
Defined.

Lemma commands_beside_dialogue_witness :
  let r := Sample.process_update (Some STATE_ADD_SHARE)
             (CommandMessage 7 12 "settings" []) (after Sample.awaiting_share_email) in
  conversation r = Some STATE_ADD_SHARE
  ∧ (existsb (String.eqb "settings")
       ["help"; "show_calendars"; "show_share"; "add_share"; "delete_share"; "revoke_authz"]
     = false →
     escaped r = None
     ∧ after r = snd (send_message 7 msgs.TG_UNKNOWN None None
                        (after Sample.awaiting_share_email))).
Proof.
  apply (commands_beside_dialogue Sample.validate_email Sample.get_authz_link
           Sample.refresh Sample.get_calendars Sample.get_acl_users Sample.add_acl_user
           Sample.delete_acl_user (Some STATE_ADD_SHARE) 7 12 "settings" []
           (after Sample.awaiting_share_email)).
  discriminate.
Defined.

Lemma finish_conversation_cleans_witness :
  let w := after Sample.in_actions in
  let r := Sample.process_update (Some STATE_ACTION_SELECTION)
             (CallbackQuery 7 11 "finish_conversation") w in
  conversation r = None
  ∧ escaped r = None
  ∧ chat_data (after r) = chat_data_empty
  ∧ messages (bot (after r)) = delete (7%Z, 10%Z) (delete (7%Z, 11%Z) (messages (bot w)))
  ∧ database (after r) = database w
  ∧ bot_data (after r) = bot_data w.
Proof.
  apply (finish_conversation_cleans Sample.validate_email Sample.get_authz_link
           Sample.refresh Sample.get_calendars Sample.get_acl_users Sample.add_acl_user
           Sample.delete_acl_user STATE_ACTION_SELECTION 7 11 11 10
           {| msg_text := msgs.PROMPT_CHOOSE_ACTION "mycal";
              reply_markup := Some (calendar_keyboard "mycal");
              reply_to_message_id := None |}
           {| msg_text := "/start"; reply_markup := None; reply_to_message_id := None |}
           (after Sample.in_actions)); try discriminate; try (vm_compute; reflexivity).
Defined.

Lemma finish_conversation_vanished_prompt_witness :
  let w := set_bot (fun b => {| messages := delete (7%Z, 11%Z) (messages b);
                                next_message_id := next_message_id b |})
             (after Sample.in_actions) in
  let r := Sample.process_update (Some STATE_ACTION_SELECTION)
             (CallbackQuery 7 11 "finish_conversation") w in
  let r' := Sample.process_update (conversation r)
              (CallbackQuery 7 11 "finish_conversation") (after r) in
  escaped r = Some (BadRequest "Message to edit not found")
  ∧ conversation r = Some STATE_ACTION_SELECTION
  ∧ chat_data (after r) = chat_data_empty
  ∧ bot (after r) = bot w
  ∧ escaped r' = Some (KeyError INLINE_MSG_KEY)
  ∧ after r' = after r
  ∧ conversation r' = Some STATE_ACTION_SELECTION.
Proof.
  apply (finish_conversation_vanished_prompt Sample.validate_email Sample.get_authz_link
           Sample.refresh Sample.get_calendars Sample.get_acl_users Sample.add_acl_user
           Sample.delete_acl_user STATE_ACTION_SELECTION 7 11 11 10
           (set_bot (fun b => {| messages := delete (7%Z, 11%Z) (messages b);
                                 next_message_id := next_message_id b |})
              (after Sample.in_actions))); try discriminate; try (vm_compute; reflexivity).
Defined.

Lemma callback_payload_roundtrip_witness :
  split_callback ("add_share_inline_reader" +:+ DELIM +:+ "bob@example.com") Sample.fresh
  = (Ok ("add_share_inline_reader", "bob@example.com"), Sample.fresh).
Proof.
  apply (callback_payload_roundtrip "add_share_inline_reader" "bob@example.com" Sample.fresh);
    reflexivity.
Defined.

Lemma delimiter_in_calendar_name_witness :
  let r := Sample.process_update (Some STATE_CALENDAR_SELECTION)
             (CallbackQuery 7 11 ("select_calendar_inline" +:+ DELIM +:+ "team#1"))
             (after Sample.in_menu) in
  escaped r = Some ValueError
  ∧ after r = after Sample.in_menu
  ∧ conversation r = Some STATE_CALENDAR_SELECTION.
Proof.
  apply (delimiter_in_calendar_name Sample.validate_email Sample.get_authz_link
           Sample.refresh Sample.get_calendars Sample.get_acl_users Sample.add_acl_user
           Sample.delete_acl_user 7 11 "team#1" (after Sample.in_menu)).
  discriminate.
Defined.

Lemma start_opens_menu_witness :
  let w := Sample.authorized in
  let r := Sample.process_update None (CommandMessage 7 10 "start" []) w in
  let keyboard :=
    map (fun calendar =>
           [ button calendar ("select_calendar_inline" +:+ DELIM +:+ calendar) ])
        ["mycal"]
    ++ [ [ button msgs.BUTTON_REVOKE_AUTHZ "revoke_authz_inline";
           button msgs.BUTTON_FINISH "finish_conversation" ] ] in
  conversation r = Some STATE_CALENDAR_SELECTION
  ∧ escaped r = None
  ∧ chat_data (after r)
    = {| initial_msg := Some 10%Z; inline_msg := Some (next_message_id (bot w));
         calendar_name := calendar_name (chat_data w) |}
  ∧ messages (bot (after r))
    = <[(7%Z, next_message_id (bot w)) :=
         {| msg_text := msgs.PROMPT_INITIAL_MENU; reply_markup := Some keyboard;
            reply_to_message_id := None |}]> (messages (bot w))
  ∧ length keyboard = S (length ["mycal"])
  ∧ bot_data (after r) = bot_data w.
Proof.
  apply (start_opens_menu Sample.validate_email Sample.get_authz_link
           Sample.refresh Sample.get_calendars Sample.get_acl_users Sample.add_acl_user
           Sample.delete_acl_user None 7 10 [] ["mycal"] "creds7" Sample.authorized);
    reflexivity.
Defined.

Lemma start_propagates_provider_error_witness :
  ∃ w', start Sample.get_authz_link Sample.refresh
          (fun _ => Raise (HttpError "Backend Error"))
          (CallbackQuery 7 11 "start") (after Sample.in_actions)
        = (Raise (HttpError "Backend Error"), w')
    ∧ bot w' = bot (after Sample.in_actions)
    ∧ bot_data w' = bot_data (after Sample.in_actions)
    ∧ chat_data w' = chat_data (after Sample.in_actions)
    ∧ (Sample.refresh "creds7" = None → w' = after Sample.in_actions).
Proof.
  apply (start_propagates_provider_error Sample.get_authz_link Sample.refresh
           (fun _ => Raise (HttpError "Backend Error"))
           (CallbackQuery 7 11 "start") "creds7" (HttpError "Backend Error")
           (after Sample.in_actions)).
  - vm_compute. reflexivity.
  - reflexivity.
Defined.

Lemma role_button_grants_witness :
  let w := after Sample.awaiting_share_email in
  let r := Sample.process_update (Some STATE_ADD_SHARE_ROLE)
             (CallbackQuery 7 11 ("add_share_inline_reader" +:+ DELIM +:+ "bob@example.com"))
             w in
  conversation r = Some STATE_ACTION_SELECTION
  ∧ escaped r = None
  ∧ chat_data (after r) = set_calendar_name None (chat_data w)
  ∧ messages (bot (after r))
    = <[(7%Z, 11%Z) := {| msg_text := msgs.TG_USER_ADDED "bob@example.com" gcal.READER "mycal";
                          reply_markup := Some (default_keyboard "mycal");
                          reply_to_message_id :=
                            reply_to_message_id
                              {| msg_text := msgs.PROMPT_SHARE_EMAIL "mycal";
                                 reply_markup := Some (default_keyboard "mycal");
                                 reply_to_message_id := None |} |}]>
        (messages (bot w))
  ∧ database (after r) = database w.
Proof.
  apply (role_button_grants Sample.validate_email Sample.get_authz_link
           Sample.refresh Sample.get_calendars Sample.get_acl_users Sample.add_acl_user
           Sample.delete_acl_user 7 11 11 "add_share_inline_reader" gcal.READER
           "bob@example.com" "mycal" "creds7"
           {| msg_text := msgs.PROMPT_SHARE_EMAIL "mycal";
              reply_markup := Some (default_keyboard "mycal");
              reply_to_message_id := None |}
           (after Sample.awaiting_share_email));
    try (vm_compute; reflexivity).
  - right. left. reflexivity.
  - vm_compute. discriminate.
Defined.

Lemma revoke_button_ends_dialogue_witness :
  let w := after Sample.in_menu in
  let r := Sample.process_update (Some STATE_CALENDAR_SELECTION)
             (CallbackQuery 7 11 "revoke_authz_inline") w in
  conversation r = None
  ∧ escaped r = None
  ∧ db.credentials_exists (database (after r)) 7 = false
  ∧ database (after r) = db.delete_credentials (database w) 7
  ∧ chat_data (after r) = chat_data_empty
  ∧ messages (bot (after r))
    = delete (7%Z, 10%Z) (delete (7%Z, 11%Z)
        (<[(7%Z, next_message_id (bot w)) :=
            {| msg_text := msgs.TG_REVOKE_AUTHZ; reply_markup := None;
               reply_to_message_id := None |}]> (messages (bot w)))).
Proof.
  apply (revoke_button_ends_dialogue Sample.validate_email Sample.get_authz_link
           Sample.refresh Sample.get_calendars Sample.get_acl_users Sample.add_acl_user
           Sample.delete_acl_user 7 11 11 10
           {| msg_text := msgs.PROMPT_INITIAL_MENU;
              reply_markup :=
                Some [ [ button "mycal" "select_calendar_inline#mycal" ];
                       [ button msgs.BUTTON_REVOKE_AUTHZ "revoke_authz_inline";
                         button msgs.BUTTON_FINISH "finish_conversation" ] ];
              reply_to_message_id := None |}
           {| msg_text := "/start"; reply_markup := None; reply_to_message_id := None |}
           (after Sample.in_menu));
    try (vm_compute; reflexivity); try discriminate; vm_compute; discriminate.
Defined.

Lemma unknown_role_KeyError_witness :
  show_share Sample.refresh
    (fun _ _ => Ok [("bob@example.com", "reader"); ("eve@example.com", "none");
                    ("dan@example.com", "writer")])
    (CommandMessage 7 20 "show_share" ["mycal"]) Sample.authorized
  = (Raise (KeyError "none"), Sample.authorized).
Proof.
  apply (unknown_role_KeyError Sample.refresh
           (fun _ _ => Ok [("bob@example.com", "reader"); ("eve@example.com", "none");
                           ("dan@example.com", "writer")])
           7 20 "show_share" "mycal" "creds7" "eve@example.com" "none"
           [("bob@example.com", "reader")] [("dan@example.com", "writer")]
           Sample.authorized); try reflexivity.
  repeat constructor. by eexists.
Defined.

Lemma every_step_keeps_witness :
  well_kept (after (Sample.process_update (Some STATE_CALENDAR_SELECTION)
                      (CallbackQuery 7 11 "revoke_authz_inline") (after Sample.in_menu)))
  ∧ well_kept (snd (fst (webauth_callback [on_wire (Granted "T0" "B0"); PyNone]
                           (after Sample.in_menu)))).
Proof.
  apply (every_step_keeps Sample.validate_email Sample.get_authz_link
           Sample.refresh Sample.get_calendars Sample.get_acl_users Sample.add_acl_user
           Sample.delete_acl_user (Some STATE_CALENDAR_SELECTION)
           (CallbackQuery 7 11 "revoke_authz_inline")
           [on_wire (Granted "T0" "B0"); PyNone] (after Sample.in_menu)).
  split.
  - unfold unique_chat_ids. vm_compute. apply NoDup_singleton.
  - unfold ids_paired. vm_compute. split; intros _; by eexists.
Defined.
